(** * Daily aggregation-and-prediction pipeline: a shallow embedding

    The development follows the Python sources module by module:
    [app/models.py] (the two tables), [app/crud.py] (ingestion, the
    aggregation query, the upsert), [app/ml_service.py] (the classifier
    port), [app/scheduler_service.py] (the daily job) and [app/main.py]
    (the manual trigger).

    Conventions.
    - A Python [float] is the rational it denotes ([Q]); sums and quotients
      of the aggregation are taken exactly. What binary64 rounding does to
      an average is shown apart, on [avg_over] at primitive floats.
    - A [datetime.date] is its proleptic ordinal ([Z]); a naive
      [datetime.datetime] is a count of microseconds from the same origin,
      so that the order of datetimes is the order of integers.
    - A Python call that may raise returns a [PyResult].
    - The database is a pair of tables, each a list of rows in insertion
      order; a function that writes returns the new database. *)

From Stdlib Require Import ZArith QArith List String Bool Lia Relations.
From Stdlib Require Floats.
Import ListNotations.
Open Scope Z_scope.

(* ================================================================== *)
(** ** Python results *)

(** The exceptions the sources can meet; all of them are subclasses of
    [Exception]. [ExternalError] stands for anything an external artifact
    raises. What is no [Exception] (an interrupt, the exit of the
    interpreter) is not modelled, nor is a store that fails for another
    reason than its constraint. *)
Inductive PyExc : Type :=
| RuntimeError (msg : string)
| AttributeError (msg : string)
| TypeError (msg : string)
| ValueError (msg : string)
| IntegrityError (msg : string)
| ExternalError (msg : string).

Inductive PyResult (A : Type) : Type :=
| Ok (a : A)
| Raise (e : PyExc).
Arguments Ok {A} a.
Arguments Raise {A} e.

Definition bind {A B : Type} (m : PyResult A) (k : A -> PyResult B) : PyResult B :=
  match m with
  | Ok a => k a
  | Raise e => Raise e
  end.

Notation "x <- m ;; k" := (bind m (fun x => k))
  (at level 61, m at next level, right associativity).

(* ================================================================== *)
(** ** Dates, datetimes and the clock *)

Definition date := Z.
Definition datetime := Z.

Definition usec_per_day : Z := 86400000000.

(** [datetime.min.time()] is 00:00:00 and [datetime.max.time()] is
    23:59:59.999999, as microseconds into the day. *)
Definition time_min : Z := 0.
Definition time_max : Z := usec_per_day - 1.

(** [datetime.combine(d, t)] *)
Definition combine (d : date) (t : Z) : datetime := d * usec_per_day + t.

(** [dt.date()] *)
Definition date_of (dt : datetime) : date := dt / usec_per_day.

(** [date(y, m, d).toordinal()], used to write calendar dates in examples. *)
Definition mkdate (y m d : Z) : date :=
  let y' := if m <=? 2 then y - 1 else y in
  let era := y' / 400 in
  let yoe := y' - era * 400 in
  let mp := (m + 9) mod 12 in
  let doy := (153 * mp + 2) / 5 + d - 1 in
  let doe := yoe * 365 + yoe / 4 - yoe / 100 + doy in
  era * 146097 + doe - 305.

(** [datetime(y, m, d, hh, mm, ss)] *)
Definition mkdatetime (y m d hh mm ss : Z) : datetime :=
  combine (mkdate y m d) (((hh * 60 + mm) * 60 + ss) * 1000000).

(** The process clock at one instant: the UTC wall time and the offset of
    the host's local zone, both in microseconds. *)
Record Clock : Type := {
  utc_instant : datetime;
  utc_offset : Z
}.

(** [datetime.utcnow()] *)
Definition datetime_utcnow (c : Clock) : datetime := utc_instant c.

(** [datetime.now()]: naive local time *)
Definition datetime_now (c : Clock) : datetime := utc_instant c + utc_offset c.

(** [date.today()]: the local date *)
Definition date_today (c : Clock) : date := date_of (datetime_now c).

(* ================================================================== *)
(** ** app/models.py *)

Record SensorReading : Type := {
  sr_id : Z;
  ph : Q;
  tds : Q;
  turbidity : Q;
  temperature : Q;
  timestamp : datetime
}.

Record DailyPrediction : Type := {
  dp_id : Z;
  dp_date : date;
  avg_ph : Q;
  avg_tds : Q;
  avg_turbidity : Q;
  avg_temperature : Q;
  prediction : string;
  prediction_confidence : option Q;
  reading_count : Z;
  created_at : datetime
}.

(** [date = Column(Date, unique=True, nullable=False, index=True)] *)
Definition date_column_unique : bool := true.

Record Database : Type := {
  sensor_readings : list SensorReading;
  daily_predictions : list DailyPrediction
}.

(** Tables as [Base.metadata.create_all] leaves them. *)
Definition empty_db : Database :=
  {| sensor_readings := []; daily_predictions := [] |}.

(** The integer primary key the storage engine gives a new row: one more
    than the largest in the table, 1 in an empty one. This is the engine's
    rule while the ids are positive and below the largest 64-bit rowid. *)
Definition next_id (ids : list Z) : Z := 1 + fold_right Z.max 0 ids.

(* ================================================================== *)
(** ** The storage layer under the ORM session *)

(** INSERT into [sensor_readings]; the [timestamp] column default
    [datetime.utcnow] is evaluated by the store when the row is written. *)
Definition insert_sensor_reading (db : Database) (c : Clock)
    (v_ph v_tds v_turbidity v_temperature : Q) : Database * SensorReading :=
  let row := {| sr_id := next_id (map sr_id (sensor_readings db));
                ph := v_ph; tds := v_tds; turbidity := v_turbidity;
                temperature := v_temperature;
                timestamp := datetime_utcnow c |} in
  ({| sensor_readings := sensor_readings db ++ [row];
      daily_predictions := daily_predictions db |}, row).

(** [db.query(DailyPrediction).filter(DailyPrediction.date == d).first()] *)
Definition first_prediction_by_date (db : Database) (d : date) : option DailyPrediction :=
  find (fun r => dp_date r =? d) (daily_predictions db).

Definition with_id (r : DailyPrediction) (i : Z) : DailyPrediction :=
  {| dp_id := i; dp_date := dp_date r;
     avg_ph := avg_ph r; avg_tds := avg_tds r;
     avg_turbidity := avg_turbidity r; avg_temperature := avg_temperature r;
     prediction := prediction r; prediction_confidence := prediction_confidence r;
     reading_count := reading_count r; created_at := created_at r |}.

(** INSERT into [daily_predictions] at commit. With the uniqueness
    constraint on [date] ([unique] true) the engine rejects a row whose date
    is already in the table; the session is then left without the row. *)
Definition insert_daily_prediction (unique : bool) (db : Database)
    (r : DailyPrediction) : PyResult (Database * DailyPrediction) :=
  if unique && existsb (fun x => dp_date x =? dp_date r) (daily_predictions db)
  then Raise (IntegrityError "UNIQUE constraint failed: daily_predictions.date")
  else
    let row := with_id r (next_id (map dp_id (daily_predictions db))) in
    Ok ({| sensor_readings := sensor_readings db;
           daily_predictions := daily_predictions db ++ [row] |}, row).

(** UPDATE of a loaded row at commit: [UPDATE ... WHERE id = dp_id r]. *)
Definition update_daily_prediction (db : Database) (r : DailyPrediction) : Database :=
  {| sensor_readings := sensor_readings db;
     daily_predictions :=
       map (fun x => if dp_id x =? dp_id r then r else x) (daily_predictions db) |}.

(* ================================================================== *)
(** ** app/crud.py *)

(** [create_sensor_reading]. The schema [SensorReadingCreate] lives in
    [app/schemas.py]; the function reads exactly four attributes of it, so
    the input is any type [In_] with those four accessors. *)
Section CreateSensorReading.
Variable In_ : Type.
Variables (in_ph in_tds in_turbidity in_temperature : In_ -> Q).

Definition create_sensor_reading (db : Database) (c : Clock) (reading : In_)
    : Database * SensorReading :=
  insert_sensor_reading db c (in_ph reading) (in_tds reading)
    (in_turbidity reading) (in_temperature reading).
End CreateSensorReading.

(** The filter of both window queries:
    [timestamp >= start_datetime] and [timestamp <= end_datetime]. *)
Definition in_window (start_datetime end_datetime : datetime) (r : SensorReading) : bool :=
  (start_datetime <=? timestamp r) && (timestamp r <=? end_datetime).

(** [get_readings_for_date]. The query has no ORDER BY: the order of the
    result is the engine's. The rows are listed here in the order of the
    table; what is proved of the result is about its members and their
    number. *)
Definition get_readings_for_date (db : Database) (target_date : date) : list SensorReading :=
  let start_datetime := combine target_date time_min in
  let end_datetime := combine target_date time_max in
  filter (in_window start_datetime end_datetime) (sensor_readings db).

(** The aggregation query runs as one scan of the table: per aggregate a
    running sum, and the running count of the rows that pass the filter.
    The sums and the quotient are exact here; the engine's are binary64. *)
Record AggAcc : Type := {
  sum_ph : Q;
  sum_tds : Q;
  sum_turbidity : Q;
  sum_temperature : Q;
  rows_seen : Z
}.

Definition agg_init : AggAcc :=
  {| sum_ph := 0%Q; sum_tds := 0%Q; sum_turbidity := 0%Q;
     sum_temperature := 0%Q; rows_seen := 0 |}.

Definition agg_add (acc : AggAcc) (r : SensorReading) : AggAcc :=
  {| sum_ph := (sum_ph acc + ph r)%Q;
     sum_tds := (sum_tds acc + tds r)%Q;
     sum_turbidity := (sum_turbidity acc + turbidity r)%Q;
     sum_temperature := (sum_temperature acc + temperature r)%Q;
     rows_seen := rows_seen acc + 1 |}.

Definition agg_step (start_datetime end_datetime : datetime)
    (acc : AggAcc) (r : SensorReading) : AggAcc :=
  if in_window start_datetime end_datetime r then agg_add acc r else acc.

(** The row the query returns: [avg] of no row is NULL, [count] is 0. *)
Record AggRow : Type := {
  row_avg_ph : option Q;
  row_avg_tds : option Q;
  row_avg_turbidity : option Q;
  row_avg_temperature : option Q;
  row_count : Z
}.

Definition sql_avg (total : Q) (n : Z) : option Q :=
  if n =? 0 then None else Some (total / inject_Z n)%Q.

Definition agg_finish (acc : AggAcc) : AggRow :=
  {| row_avg_ph := sql_avg (sum_ph acc) (rows_seen acc);
     row_avg_tds := sql_avg (sum_tds acc) (rows_seen acc);
     row_avg_turbidity := sql_avg (sum_turbidity acc) (rows_seen acc);
     row_avg_temperature := sql_avg (sum_temperature acc) (rows_seen acc);
     row_count := rows_seen acc |}.

Definition aggregation_query (db : Database) (start_datetime end_datetime : datetime) : AggRow :=
  agg_finish (fold_left (agg_step start_datetime end_datetime) (sensor_readings db) agg_init).

(** The same average over any arithmetic: the values summed from [zero] in
    their order, the sum divided by their number; NULL over no value. *)
Section EngineAvg.
Variable V : Type.
Variable zero : V.
Variable add : V -> V -> V.
Variable div_count : V -> Z -> V.

Definition avg_over (vals : list V) : option V :=
  let n := Z.of_nat (List.length vals) in
  if n =? 0 then None else Some (div_count (fold_left add vals zero) n).
End EngineAvg.

(** The average at binary64, the arithmetic of a [Float] column and of a
    Python [float]. [reading_2_8] is the double a reading of 2.8 is stored
    as; [observed_avg] is the double printed 2.7999999999999994. *)
Module Binary64.
Import PrimFloat.




End Binary64.

(** [float(x)] of a query value: NULL arrives as [None]. *)
Definition py_float (x : option Q) : PyResult Q :=
  match x with
  | Some q => Ok q
  | None => Raise (TypeError "float() argument must be a string or a real number, not 'NoneType'")
  end.

(** The dict [compute_daily_aggregates] returns, by key. *)
Record Aggregates : Type := {
  agg_avg_ph : Q;
  agg_avg_tds : Q;
  agg_avg_turbidity : Q;
  agg_avg_temperature : Q;
  agg_reading_count : Z
}.

(** [compute_daily_aggregates] *)
Definition compute_daily_aggregates (db : Database) (target_date : date)
    : PyResult (option Aggregates) :=
  let start_datetime := combine target_date time_min in
  let end_datetime := combine target_date time_max in
  let result := aggregation_query db start_datetime end_datetime in
  if row_count result =? 0 then Ok None
  else
    a1 <- py_float (row_avg_ph result) ;;
    a2 <- py_float (row_avg_tds result) ;;
    a3 <- py_float (row_avg_turbidity result) ;;
    a4 <- py_float (row_avg_temperature result) ;;
    Ok (Some {| agg_avg_ph := a1; agg_avg_tds := a2; agg_avg_turbidity := a3;
                agg_avg_temperature := a4; agg_reading_count := row_count result |}).

(** The update branch of [create_daily_prediction]: the assignments to the
    loaded row [existing]. *)
Definition assign_prediction (existing : DailyPrediction) (aggregates : Aggregates)
    (label : string) (confidence : option Q) (now : datetime) : DailyPrediction :=
  {| dp_id := dp_id existing; dp_date := dp_date existing;
     avg_ph := agg_avg_ph aggregates; avg_tds := agg_avg_tds aggregates;
     avg_turbidity := agg_avg_turbidity aggregates;
     avg_temperature := agg_avg_temperature aggregates;
     prediction := label; prediction_confidence := confidence;
     reading_count := agg_reading_count aggregates;
     created_at := now |}.

(** The insert branch: the new object, its [id] still unset (0 here) and
    [created_at] filled by the column default [datetime.utcnow]. *)
Definition new_prediction (target_date : date) (aggregates : Aggregates)
    (label : string) (confidence : option Q) (now : datetime) : DailyPrediction :=
  {| dp_id := 0; dp_date := target_date;
     avg_ph := agg_avg_ph aggregates; avg_tds := agg_avg_tds aggregates;
     avg_turbidity := agg_avg_turbidity aggregates;
     avg_temperature := agg_avg_temperature aggregates;
     prediction := label; prediction_confidence := confidence;
     reading_count := agg_reading_count aggregates;
     created_at := now |}.

(** The second half of [create_daily_prediction], from [if existing:] on:
    the write and its commit. *)
Definition write_daily_prediction (unique : bool) (db : Database) (c : Clock)
    (target_date : date) (aggregates : Aggregates) (label : string)
    (confidence : option Q) (existing : option DailyPrediction)
    : PyResult (Database * DailyPrediction) :=
  match existing with
  | Some ex =>
      let ex' := assign_prediction ex aggregates label confidence (datetime_utcnow c) in
      Ok (update_daily_prediction db ex', ex')
  | None =>
      insert_daily_prediction unique db
        (new_prediction target_date aggregates label confidence (datetime_utcnow c))
  end.

(** [create_daily_prediction]: lookup by date, then update or insert. *)
Definition create_daily_prediction (db : Database) (c : Clock) (target_date : date)
    (aggregates : Aggregates) (label : string) (confidence : option Q)
    : PyResult (Database * DailyPrediction) :=
  let existing := first_prediction_by_date db target_date in
  write_daily_prediction date_column_unique db c target_date aggregates label
    confidence existing.

(* ================================================================== *)
(** ** app/ml_service.py *)

(** [np.array([[ph, tds, turbidity, temperature]])] *)
Definition Features : Type := (Q * Q * Q * Q)%type.

(** The unpickled estimator, as far as [predict] uses it:
    [model.predict(features)[0]], and [model.predict_proba(features)[0]]
    when the object has that attribute ([hasattr]). Either call may raise. *)
Record Model : Type := {
  model_predict : Features -> PyResult Z;
  model_predict_proba : option (Features -> PyResult (list Q))
}.

(** The unpickled encoder: [label_encoder.inverse_transform([y])[0]]. *)
Record LabelEncoder : Type := {
  inverse_transform : Z -> PyResult string
}.

(** [MLService]; the two attributes are [None] until [load_artifacts]. *)
Record MLService : Type := {
  model : option Model;
  label_encoder : option LabelEncoder
}.

(** Python's [max] over a sequence: the first element, replaced by each
    later element that is greater. *)
Definition py_max (l : list Q) : PyResult Q :=
  match l with
  | [] => Raise (ValueError "max() arg is an empty sequence")
  | x :: t => Ok (fold_left (fun cur item => if Qle_bool item cur then cur else item) t x)
  end.

(** [MLService.predict] *)
Definition predict (self : MLService) (v_ph v_tds v_turbidity v_temperature : Q)
    : PyResult (string * option Q) :=
  match model self, label_encoder self with
  | Some m, Some enc =>
      let features := (v_ph, v_tds, v_turbidity, v_temperature) in
      prediction_encoded <- model_predict m features ;;
      prediction_label <- inverse_transform enc prediction_encoded ;;
      match model_predict_proba m with
      | Some proba =>
          probabilities <- proba features ;;
          confidence <- py_max probabilities ;;
          Ok (prediction_label, Some confidence)
      | None => Ok (prediction_label, None)
      end
  | _, _ => Raise (RuntimeError "ML artifacts not loaded. Call load_artifacts() first.")
  end.

(* ================================================================== *)
(** ** app/scheduler_service.py *)

(** The call [ml_service.predict(...)] on the module's global
    [ml_service], which is [None] until something binds it. *)
Definition call_ml_service_predict (ml_service : option MLService) (aggregates : Aggregates)
    : PyResult (string * option Q) :=
  match ml_service with
  | None => Raise (AttributeError "'NoneType' object has no attribute 'predict'")
  | Some svc =>
      predict svc (agg_avg_ph aggregates) (agg_avg_tds aggregates)
        (agg_avg_turbidity aggregates) (agg_avg_temperature aggregates)
  end.

(** How a run ended: the branch of [run_daily_prediction] that was taken,
    which in the source is visible in the log only (the function returns
    [None] on all three). *)
Inductive JobOutcome : Type :=
| Completed (r : DailyPrediction)
| SkippedNoData
| Failed (e : PyExc).

(** The [try] block of [run_daily_prediction]. [c] is the clock when the
    job starts, [cw] the clock when the store writes. The only write is the
    commit that ends the block, so a raise leaves the store as it was. *)
Definition job_try_block (ml_service : option MLService) (c cw : Clock) (db : Database)
    : PyResult (Database * option DailyPrediction) :=
  let yesterday := date_today c - 1 in
  aggregates <- compute_daily_aggregates db yesterday ;;
  match aggregates with
  | None => Ok (db, None)
  | Some a =>
      p <- call_ml_service_predict ml_service a ;;
      w <- create_daily_prediction db cw yesterday a (fst p) (snd p) ;;
      Ok (fst w, Some (snd w))
  end.

(** [run_daily_prediction]: the block under [except Exception]. *)
Definition run_daily_prediction (ml_service : option MLService) (c cw : Clock) (db : Database)
    : PyResult (Database * JobOutcome) :=
  match job_try_block ml_service c cw db with
  | Ok (db', Some r) => Ok (db', Completed r)
  | Ok (db', None) => Ok (db', SkippedNoData)
  | Raise e => Ok (db, Failed e)
  end.

(** The job [start_scheduler] registers:
    [add_job(func=run_daily_prediction, trigger=CronTrigger(hour=0, minute=0),
    id='daily_prediction_job')]. *)
Record ScheduledJob : Type := {
  job_id : string;
  job_func : option MLService -> Clock -> Clock -> Database -> PyResult (Database * JobOutcome);
  cron_hour : Z;
  cron_minute : Z
}.

Definition start_scheduler : ScheduledJob :=
  {| job_id := "daily_prediction_job";
     job_func := run_daily_prediction;
     cron_hour := 0;
     cron_minute := 0 |}.

(* ================================================================== *)
(** ** app/main.py *)

Inductive HttpResponse : Type :=
| Http200 (message : string)
| Http500 (detail : string).

(** [str(e)] *)
Definition exc_str (e : PyExc) : string :=
  match e with
  | RuntimeError m | AttributeError m | TypeError m
  | ValueError m | IntegrityError m | ExternalError m => m
  end.

(** [trigger_prediction_manually]: the endpoint takes no parameter of the
    request (its [db] session is not used by the job, which opens its own). *)
Definition trigger_prediction_manually (ml_service : option MLService) (c cw : Clock)
    (db : Database) : Database * HttpResponse :=
  match run_daily_prediction ml_service c cw db with
  | Ok (db', _) => (db', Http200 "Daily prediction triggered successfully")
  | Raise e => (db, Http500 (exc_str e))
  end.

(* ================================================================== *)
(** ** Runs of the job that overlap

    The scheduler runs [run_daily_prediction] on its own thread and the
    manual trigger calls it from the request handler; neither takes a lock.
    A run is cut at its queries and its commit: each of them is atomic at
    the store, and other threads may act in between. The relation lets any
    number of runs overlap and lets each step read any clock; the program's
    executions are among its paths. *)

Inductive JobPC : Type :=
| AtStart
| AtPredict (d : date) (a : Aggregates)
| AtLookup (d : date) (a : Aggregates) (label : string) (conf : option Q)
| AtWrite (d : date) (a : Aggregates) (label : string) (conf : option Q)
    (existing : option DailyPrediction)
| Finished (o : JobOutcome).

(** One step of a run at clock [c]; [unique] says whether the store has the
    uniqueness constraint on [date]. *)
Definition job_step (unique : bool) (ml_service : option MLService) (c : Clock)
    (db : Database) (pc : JobPC) : option (Database * JobPC) :=
  match pc with
  | AtStart =>
      let yesterday := date_today c - 1 in
      Some (db, match compute_daily_aggregates db yesterday with
                | Raise e => Finished (Failed e)
                | Ok None => Finished SkippedNoData
                | Ok (Some a) => AtPredict yesterday a
                end)
  | AtPredict d a =>
      Some (db, match call_ml_service_predict ml_service a with
                | Raise e => Finished (Failed e)
                | Ok p => AtLookup d a (fst p) (snd p)
                end)
  | AtLookup d a label conf =>
      Some (db, AtWrite d a label conf (first_prediction_by_date db d))
  | AtWrite d a label conf existing =>
      Some (match write_daily_prediction unique db c d a label conf existing with
            | Ok w => (fst w, Finished (Completed (snd w)))
            | Raise e => (db, Finished (Failed e))
            end)
  | Finished _ => None
  end.

(** The date a run is working on, once it has one and until it ends. *)
Definition in_flight (pc : JobPC) : option date :=
  match pc with
  | AtPredict d _ | AtLookup d _ _ _ | AtWrite d _ _ _ _ => Some d
  | AtStart | Finished _ => None
  end.

Record Sys : Type := {
  store : Database;
  threads : list JobPC
}.

Definition init_sys : Sys := {| store := empty_db; threads := [] |}.

Fixpoint set_nth {A : Type} (l : list A) (i : nat) (x : A) : list A :=
  match l, i with
  | [], _ => []
  | _ :: t, O => x :: t
  | h :: t, S j => h :: set_nth t j x
  end.

Section Interleaving.
Variable unique : bool.
Variable ml_service : option MLService.

Inductive sys_step : Sys -> Sys -> Prop :=
| step_trigger : forall s,
    (* a scheduler tick or a manual trigger starts a run *)
    sys_step s {| store := store s; threads := threads s ++ [AtStart] |}
| step_job : forall s i c pc db' pc',
    nth_error (threads s) i = Some pc ->
    job_step unique ml_service c (store s) pc = Some (db', pc') ->
    sys_step s {| store := db'; threads := set_nth (threads s) i pc' |}
| step_ingest : forall s c v1 v2 v3 v4,
    (* POST /api/readings *)
    sys_step s {| store := fst (insert_sensor_reading (store s) c v1 v2 v3 v4);
                  threads := threads s |}.

Definition reachable (s : Sys) : Prop := clos_refl_trans_n1 Sys sys_step init_sys s.
End Interleaving.

(** The number of runs in flight for date [d]. *)
Definition runs_in_flight (d : date) (s : Sys) : nat :=
  List.length (filter (fun pc => match in_flight pc with
                            | Some d' => d' =? d
                            | None => false
                            end) (threads s)).

(** The same steps as a function of a schedule, to run an interleaving. *)
Inductive Event : Type :=
| EvTrigger
| EvJob (i : nat) (c : Clock)
| EvIngest (c : Clock) (v1 v2 v3 v4 : Q).

Definition apply_event (unique : bool) (ml_service : option MLService)
    (s : Sys) (ev : Event) : option Sys :=
  match ev with
  | EvTrigger => Some {| store := store s; threads := threads s ++ [AtStart] |}
  | EvJob i c =>
      match nth_error (threads s) i with
      | Some pc =>
          match job_step unique ml_service c (store s) pc with
          | Some st => Some {| store := fst st; threads := set_nth (threads s) i (snd st) |}
          | None => None
          end
      | None => None
      end
  | EvIngest c v1 v2 v3 v4 =>
      Some {| store := fst (insert_sensor_reading (store s) c v1 v2 v3 v4);
              threads := threads s |}
  end.

Fixpoint run_events (unique : bool) (ml_service : option MLService)
    (s : Sys) (evs : list Event) : option Sys :=
  match evs with
  | [] => Some s
  | ev :: rest =>
      match apply_event unique ml_service s ev with
      | Some s' => run_events unique ml_service s' rest
      | None => None
      end
  end.

(** A run on its own: its four steps back to back, the first three at the
    clock [c] and the write at [cw]. *)
Definition step_or_stay (unique : bool) (ml_service : option MLService) (c : Clock)
    (st : Database * JobPC) : Database * JobPC :=
  match job_step unique ml_service c (fst st) (snd st) with
  | Some st' => st'
  | None => st
  end.

Definition run_alone (unique : bool) (ml_service : option MLService) (c cw : Clock)
    (db : Database) : Database * JobPC :=
  step_or_stay unique ml_service cw
    (step_or_stay unique ml_service c
       (step_or_stay unique ml_service c
          (step_or_stay unique ml_service c (db, AtStart)))).

(* ================================================================== *)
(** ** app/crud.py: the latest-row queries *)

(** [query.order_by(key.desc()).first()]: a row whose key is largest, [None]
    on an empty table. Among rows with the same key the engine's choice is
    not specified; here the one stored first is returned, and nothing below
    depends on it. *)
Fixpoint first_by_desc {A : Type} (key : A -> Z) (l : list A) : option A :=
  match l with
  | [] => None
  | x :: t =>
      match first_by_desc key t with
      | Some y => if key x <? key y then Some y else Some x
      | None => Some x
      end
  end.

(** [get_latest_sensor_reading] *)
Definition get_latest_sensor_reading (db : Database) : option SensorReading :=
  first_by_desc timestamp (sensor_readings db).

(** [get_latest_daily_prediction] *)
Definition get_latest_daily_prediction (db : Database) : option DailyPrediction :=
  first_by_desc dp_date (daily_predictions db).

(* ================================================================== *)
(** ** app/ml_service.py: construction and loading *)

(** The object [MLService(model_path, encoder_path)]: the two paths and the
    two attributes [predict] reads. *)
Record MLServiceObject : Type := {
  model_path : string;
  encoder_path : string;
  artifacts : MLService
}.

(** [MLService.__init__] *)
Definition MLService_init (v_model_path v_encoder_path : string) : MLServiceObject :=
  {| model_path := v_model_path; encoder_path := v_encoder_path;
     artifacts := {| model := None; label_encoder := None |} |}.

(** [MLService.load_artifacts]. [joblib.load] is what the files hold: for
    each path an estimator (an encoder) or an exception; [classes_of] is the
    read of [label_encoder.classes_] for the log line, which an object
    without that attribute fails. The [except] clause logs and raises
    again, so the attributes assigned before the failure stay assigned. *)
Section LoadArtifacts.
Variable joblib_load_model : string -> PyResult Model.
Variable joblib_load_encoder : string -> PyResult LabelEncoder.
Variable classes_of : LabelEncoder -> PyResult (list string).

Definition load_artifacts (self : MLServiceObject) : MLServiceObject * PyResult unit :=
  match joblib_load_model (model_path self) with
  | Raise e => (self, Raise e)
  | Ok m =>
      let self1 := {| model_path := model_path self; encoder_path := encoder_path self;
                      artifacts := {| model := Some m;
                                      label_encoder := label_encoder (artifacts self) |} |} in
      match joblib_load_encoder (encoder_path self) with
      | Raise e => (self1, Raise e)
      | Ok enc =>
          let self2 := {| model_path := model_path self; encoder_path := encoder_path self;
                          artifacts := {| model := Some m; label_encoder := Some enc |} |} in
          match classes_of enc with
          | Raise e => (self2, Raise e)
          | Ok _ => (self2, Ok tt)
          end
      end
  end.
End LoadArtifacts.

(* ================================================================== *)
(** ** app/scheduler_service.py: when the cron trigger fires *)

(** [CronTrigger(hour, minute)] fires when the local wall time is
    hour:minute:00. *)
Definition cron_fires (j : ScheduledJob) (c : Clock) : bool :=
  datetime_now c mod usec_per_day =? ((cron_hour j * 60 + cron_minute j) * 60) * 1000000.

(* ================================================================== *)
(** ** app/main.py: the reading and query endpoints *)

(** What an endpoint gives back: a body with its status code, or a raised
    [HTTPException]. *)
Inductive Reply (A : Type) : Type :=
| Replied (status : Z) (body : A)
| HTTPException (status : Z) (detail : string).
Arguments Replied {A} status body.
Arguments HTTPException {A} status detail.

(** [submit_sensor_reading]; status 201 is the decorator's. The store of
    this development does not fail on an INSERT of a reading, so the
    [except] branch (status 500) has no case here. *)
Section SubmitSensorReading.
Variable In_ : Type.
Variables (in_ph in_tds in_turbidity in_temperature : In_ -> Q).

Definition submit_sensor_reading (db : Database) (c : Clock) (reading : In_)
    : Database * Reply SensorReading :=
  let res := create_sensor_reading In_ in_ph in_tds in_turbidity in_temperature
               db c reading in
  (fst res, Replied 201 (snd res)).
End SubmitSensorReading.

(** [get_latest_reading] *)
Definition get_latest_reading (db : Database) : Reply SensorReading :=
  match get_latest_sensor_reading db with
  | None => HTTPException 404 "No sensor readings found"
  | Some reading => Replied 200 reading
  end.

(** [get_latest_prediction] *)
Definition get_latest_prediction (db : Database) : Reply DailyPrediction :=
  match get_latest_daily_prediction db with
  | None => HTTPException 404 "No predictions found"
  | Some p => Replied 200 p
  end.

(** [DashboardResponse] as [get_dashboard_data] builds it. *)
Record DashboardResponse : Type := {
  latest_reading : option SensorReading;
  latest_prediction : option DailyPrediction
}.

(** [get_dashboard_data] *)
Definition get_dashboard_data (db : Database) : Reply DashboardResponse :=
  Replied 200 {| latest_reading := get_latest_sensor_reading db;
                 latest_prediction := get_latest_daily_prediction db |}.

(* ================================================================== *)
(** ** Notions the properties are stated with *)

(** No two rows of [daily_predictions] have the same date. *)
Definition unique_dates (db : Database) : Prop :=
  NoDup (map dp_date (daily_predictions db)).

(** A store that keeps its primary key and its uniqueness constraint. *)
Definition store_ok (db : Database) : Prop :=
  NoDup (map dp_id (daily_predictions db)) /\ unique_dates db.

(** The rows of [daily_predictions] for date [d]. *)
Definition predictions_for (db : Database) (d : date) : list DailyPrediction :=
  filter (fun r => dp_date r =? d) (daily_predictions db).

(** Start and end of the day [d]. *)
Definition start_of_day (d : date) : datetime := combine d time_min.
Definition end_of_day (d : date) : datetime := combine d time_max.

(** The readings of the inclusive window of day [d], as a proposition on
    one reading and as the sub-list of a table. *)
Definition within_day (d : date) (r : SensorReading) : Prop :=
  start_of_day d <= timestamp r <= end_of_day d.

Definition window_readings (db : Database) (d : date) : list SensorReading :=
  filter (in_window (start_of_day d) (end_of_day d)) (sensor_readings db).

(** The arithmetic mean of a list of values: their sum over their number. *)
Definition Qsum (l : list Q) : Q := fold_right Qplus 0%Q l.

Definition arithmetic_mean (l : list Q) : Q :=
  (Qsum l / inject_Z (Z.of_nat (List.length l)))%Q.

(** The probability a vector of class probabilities gives to the class the
    estimator predicted (classes are encoded 0, 1, ...). *)
Definition mass_of_predicted (probabilities : list Q) (prediction_encoded : Z) : option Q :=
  if prediction_encoded <? 0 then None
  else nth_error probabilities (Z.to_nat prediction_encoded).

(** The artifacts are not loaded: the module's [ml_service] is [None], or
    the service has no model or no encoder yet. *)
Definition artifacts_not_loaded (ml_service : option MLService) : Prop :=
  match ml_service with
  | None => True
  | Some svc => model svc = None \/ label_encoder svc = None
  end.

(** The row [r] carries the aggregate [a], the label and the confidence. *)
Definition holds (r : DailyPrediction) (a : Aggregates) (label : string)
    (conf : option Q) : Prop :=
  avg_ph r = agg_avg_ph a /\ avg_tds r = agg_avg_tds a /\
  avg_turbidity r = agg_avg_turbidity a /\
  avg_temperature r = agg_avg_temperature a /\
  prediction r = label /\ prediction_confidence r = conf /\
  reading_count r = agg_reading_count a.

(** What a run holds as the result of its lookup for the date [d] is
    still good for the table: the row it loaded is for [d] and the table has
    a row with that id for [d] (another run may have updated it since), or
    it loaded none and the table has none for [d]. *)
Definition lookup_sound (db : Database) (d : date) (existing : option DailyPrediction) : Prop :=
  match existing with
  | Some ex =>
      dp_date ex = d /\
      exists row, In row (daily_predictions db) /\ dp_id row = dp_id ex /\ dp_date row = d
  | None => ~ In d (map dp_date (daily_predictions db))
  end.

(** What a thread holds is good for the table, and the invariant of the
    system: the store keeps its constraints and every thread's loaded row is
    good for it. *)
Definition thread_ok (db : Database) (pc : JobPC) : Prop :=
  match pc with
  | AtWrite d _ _ _ (Some ex) => lookup_sound db d (Some ex)
  | _ => True
  end.

Definition sys_inv (s : Sys) : Prop :=
  store_ok (store s) /\ Forall (thread_ok (store s)) (threads s).

(** All but the recomputed-at stamp of two prediction rows agree. *)
Definition same_but_stamp (r1 r2 : DailyPrediction) : Prop :=
  dp_id r1 = dp_id r2 /\ dp_date r1 = dp_date r2 /\
  avg_ph r1 = avg_ph r2 /\ avg_tds r1 = avg_tds r2 /\
  avg_turbidity r1 = avg_turbidity r2 /\ avg_temperature r1 = avg_temperature r2 /\
  prediction r1 = prediction r2 /\
  prediction_confidence r1 = prediction_confidence r2 /\
  reading_count r1 = reading_count r2.

(* ================================================================== *)
(** ** Concrete data for the examples *)

Definition reading_at (i : Z) (v_ph : Q) (ts : datetime) : SensorReading :=
  {| sr_id := i; ph := v_ph; tds := 350 # 1; turbidity := 28 # 10;
     temperature := 25 # 1; timestamp := ts |}.

Definition jan1 : date := mkdate 2024 1 1.

(** Three readings on 2024-01-01 with acidity 7.0, 7.2 and 7.4 (the first
    at the first, the last at the last microsecond of the day), one in the
    last microsecond of the day before and one at the next midnight. *)
Definition db_three_readings : Database :=
  {| sensor_readings :=
       [ reading_at 1 (99 # 10) (combine (mkdate 2023 12 31) time_max);
         reading_at 2 (70 # 10) (mkdatetime 2024 1 1 0 0 0);
         reading_at 3 (72 # 10) (mkdatetime 2024 1 1 12 0 0);
         reading_at 4 (74 # 10) (combine jan1 time_max);
         reading_at 5 (10 # 10) (mkdatetime 2024 1 2 0 0 0) ];
     daily_predictions := [] |}.

(** A clock of a host whose local zone is UTC, and one whose zone is
    UTC+05:30. *)
Definition clock_utc (t : datetime) : Clock :=
  {| utc_instant := t; utc_offset := 0 |}.

Definition clock_plus_0530 (t : datetime) : Clock :=
  {| utc_instant := t; utc_offset := 19800 * 1000000 |}.

(** An estimator that predicts its most probable class. *)
Definition forest_model : Model :=
  {| model_predict := fun _ => Ok 0;
     model_predict_proba := Some (fun _ => Ok [91 # 100; 9 # 100]) |}.

(** An estimator whose [predict] and [predict_proba] disagree: it predicts
    class 0 and gives class 1 the larger probability. *)
Definition disagreeing_model : Model :=
  {| model_predict := fun _ => Ok 0;
     model_predict_proba := Some (fun _ => Ok [3 # 10; 7 # 10]) |}.

(** An estimator without [predict_proba]. *)
Definition bare_model : Model :=
  {| model_predict := fun _ => Ok 1;
     model_predict_proba := None |}.

Definition two_labels : LabelEncoder :=
  {| inverse_transform := fun y =>
       if y =? 0 then Ok "Safe"%string
       else if y =? 1 then Ok "Unsafe"%string
       else Raise (ValueError "y contains previously unseen labels") |}.

Definition loaded_service (m : Model) : MLService :=
  {| model := Some m; label_encoder := Some two_labels |}.

Definition unloaded_service : MLService :=
  {| model := None; label_encoder := None |}.

(** An ingestion payload that also carries a timestamp of the caller's. *)
Record PayloadWithTime : Type := {
  p_ph : Q;
  p_tds : Q;
  p_turbidity : Q;
  p_temperature : Q;
  p_timestamp : datetime
}.

(** A store with a prediction for 2024-01-03, a date without readings. *)
Definition stale_prediction : DailyPrediction :=
  {| dp_id := 1; dp_date := mkdate 2024 1 3;
     avg_ph := 7 # 1; avg_tds := 300 # 1; avg_turbidity := 2 # 1;
     avg_temperature := 20 # 1;
     prediction := "Safe"; prediction_confidence := Some (91 # 100);
     reading_count := 8; created_at := mkdatetime 2024 1 4 0 0 1 |}.

Definition db_stale : Database :=
  {| sensor_readings := sensor_readings db_three_readings;
     daily_predictions := [stale_prediction] |}.

(** The same four values, once with a timestamp of a year before and once
    with one of a year after. *)
Definition payload_backdated : PayloadWithTime :=
  {| p_ph := 72 # 10; p_tds := 350 # 1; p_turbidity := 28 # 10;
     p_temperature := 25 # 1; p_timestamp := mkdatetime 2023 1 1 0 0 0 |}.

Definition payload_postdated : PayloadWithTime :=
  {| p_ph := 72 # 10; p_tds := 350 # 1; p_turbidity := 28 # 10;
     p_temperature := 25 # 1; p_timestamp := mkdatetime 2025 1 1 0 0 0 |}.

(** Two readings on the morning of 2024-01-01 (UTC). *)
Definition db_morning : Database :=
  {| sensor_readings :=
       [ reading_at 1 (70 # 10) (mkdatetime 2024 1 1 6 0 0);
         reading_at 2 (72 # 10) (mkdatetime 2024 1 1 12 0 0) ];
     daily_predictions := [] |}.

(** The instant 2024-01-01 18:30:00 UTC on a host at UTC+05:30: local
    midnight, the time the cron trigger of [start_scheduler] fires. *)
Definition clock_local_midnight : Clock :=
  clock_plus_0530 (mkdatetime 2024 1 1 18 30 0).

(** A schedule in which two runs for 2024-01-01 overlap: a reading is
    ingested on that day; on the next day two triggers arrive and the two
    runs advance in turn, both looking the date up before either writes. *)
Definition ev_clock : Clock := clock_utc (mkdatetime 2024 1 2 0 0 0).

Definition overlap_schedule : list Event :=
  [ EvIngest (clock_utc (mkdatetime 2024 1 1 12 0 0)) (72 # 10) (350 # 1) (28 # 10) (25 # 1);
    EvTrigger; EvTrigger;
    EvJob 0 ev_clock; EvJob 1 ev_clock ].

Definition race_schedule : list Event :=
  overlap_schedule ++
  [ EvJob 0 ev_clock; EvJob 1 ev_clock;    (* both classify *)
    EvJob 0 ev_clock; EvJob 1 ev_clock;    (* both look the date up: no row *)
    EvJob 0 ev_clock ].                    (* run 0 inserts *)

Definition sys_after (unique : bool) (evs : list Event) : Sys :=
  match run_events unique (Some (loaded_service forest_model)) init_sys evs with
  | Some s => s
  | None => init_sys
  end.

(** The race to its end: run 1 writes after run 0 has inserted. *)
Definition race_schedule_full : list Event :=
  race_schedule ++ [ EvJob 1 ev_clock ].

(** A disk that holds the two artifacts under the paths [app/main.py]
    passes, and nothing else. *)
Definition disk_model (path : string) : PyResult Model :=
  if String.eqb path "ml_artifacts/water_quality_rf_model.pkl"
  then Ok forest_model
  else Raise (ExternalError "No such file or directory").

Definition disk_encoder (path : string) : PyResult LabelEncoder :=
  if String.eqb path "ml_artifacts/label_encoder.pkl"
  then Ok two_labels
  else Raise (ExternalError "No such file or directory").

Definition two_label_classes (enc : LabelEncoder) : PyResult (list string) :=
  Ok ["Safe"%string; "Unsafe"%string].

(** A store with the readings of [db_three_readings] and a stale
    prediction for 2024-01-01. *)
Definition stale_jan1 : DailyPrediction :=
  {| dp_id := 4; dp_date := jan1;
     avg_ph := 1 # 1; avg_tds := 1 # 1; avg_turbidity := 1 # 1;
     avg_temperature := 1 # 1;
     prediction := "Unsafe"; prediction_confidence := None;
     reading_count := 99; created_at := mkdatetime 2024 1 1 23 0 0 |}.

Definition db_stale_jan1 : Database :=
  {| sensor_readings := sensor_readings db_three_readings;
     daily_predictions := [stale_jan1] |}.

(** The largest id the store's 64-bit key can hold. *)
Definition max_rowid : Z := 2 ^ 63 - 1.

(** An estimator and an encoder that fail by the input: [predict] raises
    on a non-positive acidity and predicts class 7, which the encoder does
    not know, on an acidity up to 1; [predict_proba] raises on a
    non-positive dissolved-solids value and returns an empty vector on a
    value up to 1. *)
Definition moody_model : Model :=
  {| model_predict := fun f =>
       if Qle_bool (fst (fst (fst f))) 0 then Raise (ExternalError "Input contains NaN")
       else if Qle_bool (fst (fst (fst f))) 1 then Ok 7
       else Ok 0;
     model_predict_proba := Some (fun f =>
       if Qle_bool (snd (fst (fst f))) 0 then Raise (ExternalError "predict_proba failed")
       else if Qle_bool (snd (fst (fst f))) 1 then Ok []
       else Ok [1 # 2; 1 # 2]) |}.

(* ================================================================== *)
(** * Properties *)

(** ** The day window *)

Lemma in_window_iff (d : date) (r : SensorReading) :
  in_window (start_of_day d) (end_of_day d) r = true <-> within_day d r.
Proof.
  unfold in_window, within_day.
  rewrite andb_true_iff, !Z.leb_le. tauto.
Qed.

(** The inclusive window of day [d] holds exactly the datetimes whose date
    is [d]: nothing lies between 23:59:59.999999 and the next midnight. *)
Lemma within_day_date_of (d : date) (r : SensorReading) :
  within_day d r <-> date_of (timestamp r) = d.
Proof.
  unfold within_day, start_of_day, end_of_day, combine, time_min, time_max, date_of.
  assert (Hu : 0 < usec_per_day) by (unfold usec_per_day; lia).
  split.
  - intros [Hlo Hhi]. symmetry. apply Z.div_unique with (r := timestamp r - d * usec_per_day); lia.
  - intros <-.
    pose proof (Z.mul_div_le (timestamp r) usec_per_day Hu).
    pose proof (Z.mul_succ_div_gt (timestamp r) usec_per_day Hu).
    lia.
Qed.

Lemma window_readings_In (db : Database) (d : date) (r : SensorReading) :
  In r (window_readings db d) <-> In r (sensor_readings db) /\ within_day d r.
Proof.
  unfold window_readings. rewrite filter_In, in_window_iff. tauto.
Qed.

Lemma get_readings_for_date_window (db : Database) (d : date) :
  get_readings_for_date db d = window_readings db d.
Proof. reflexivity. Qed.

(** ** The aggregation query *)

(** The scan with the filter inside is the plain scan of the filtered rows. *)
Lemma scan_filter (lo hi : datetime) (rows : list SensorReading) :
  forall acc,
    fold_left (agg_step lo hi) rows acc =
    fold_left agg_add (filter (in_window lo hi) rows) acc.
Proof.
  induction rows as [|r rows IH]; intros acc; simpl.
  - reflexivity.
  - unfold agg_step at 2. destruct (in_window lo hi r); simpl; apply IH.
Qed.

Lemma scan_sums (rows : list SensorReading) :
  forall acc,
    let res := fold_left agg_add rows acc in
    (sum_ph res == sum_ph acc + Qsum (map ph rows))%Q /\
    (sum_tds res == sum_tds acc + Qsum (map tds rows))%Q /\
    (sum_turbidity res == sum_turbidity acc + Qsum (map turbidity rows))%Q /\
    (sum_temperature res == sum_temperature acc + Qsum (map temperature rows))%Q /\
    rows_seen res = rows_seen acc + Z.of_nat (List.length rows).
Proof.
  induction rows as [|r rows IH]; intros acc; cbn zeta.
  - simpl. repeat split; try ring; try lia.
  - specialize (IH (agg_add acc r)). cbn zeta in IH.
    destruct IH as (H1 & H2 & H3 & H4 & H5).
    change (fold_left agg_add (r :: rows) acc) with (fold_left agg_add rows (agg_add acc r)).
    rewrite H1, H2, H3, H4, H5. simpl.
    repeat split; try ring; try lia.
Qed.

Lemma aggregation_query_window (db : Database) (d : date) :
  aggregation_query db (combine d time_min) (combine d time_max) =
  agg_finish (fold_left agg_add (window_readings db d) agg_init).
Proof.
  unfold aggregation_query. rewrite scan_filter. reflexivity.
Qed.

Lemma aggregation_query_count (db : Database) (d : date) :
  row_count (aggregation_query db (combine d time_min) (combine d time_max)) =
  Z.of_nat (List.length (window_readings db d)).
Proof.
  rewrite aggregation_query_window. simpl.
  pose proof (scan_sums (window_readings db d) agg_init) as H. cbn zeta in H.
  destruct H as (_ & _ & _ & _ & H). rewrite H. reflexivity.
Qed.

(** What [compute_daily_aggregates] returns is a function of the readings
    of the window alone. *)
Lemma compute_daily_aggregates_window (db db' : Database) (d : date) :
  window_readings db' d = window_readings db d ->
  compute_daily_aggregates db' d = compute_daily_aggregates db d.
Proof.
  intros H. unfold compute_daily_aggregates. cbn zeta.
  rewrite !aggregation_query_window, H. reflexivity.
Qed.

Lemma compute_daily_aggregates_empty (db : Database) (d : date) :
  window_readings db d = [] -> compute_daily_aggregates db d = Ok None.
Proof.
  intros H. unfold compute_daily_aggregates. cbn zeta.
  rewrite aggregation_query_window, H. reflexivity.
Qed.

Lemma mean_of_scan (total : Q) (vals : list Q) (n : Z) :
  (total == 0 + Qsum vals)%Q ->
  n = Z.of_nat (List.length vals) ->
  n <> 0 ->
  exists q, sql_avg total n = Some q /\ (q == arithmetic_mean vals)%Q.
Proof.
  intros Ht Hn Hz. unfold sql_avg.
  destruct (n =? 0) eqn:E; [apply Z.eqb_eq in E; contradiction|].
  eexists; split; [reflexivity|].
  unfold arithmetic_mean. rewrite Ht, <- Hn. field.
  intros Hq. apply Hz.
  unfold Qeq in Hq. simpl in Hq. lia.
Qed.

Lemma compute_daily_aggregates_nonempty (db : Database) (d : date) :
  window_readings db d <> [] ->
  exists a,
    compute_daily_aggregates db d = Ok (Some a) /\
    (agg_avg_ph a == arithmetic_mean (map ph (window_readings db d)))%Q /\
    (agg_avg_tds a == arithmetic_mean (map tds (window_readings db d)))%Q /\
    (agg_avg_turbidity a == arithmetic_mean (map turbidity (window_readings db d)))%Q /\
    (agg_avg_temperature a == arithmetic_mean (map temperature (window_readings db d)))%Q /\
    agg_reading_count a = Z.of_nat (List.length (window_readings db d)).
Proof.
  intros Hne.
  pose proof (aggregation_query_count db d) as Hc.
  unfold compute_daily_aggregates. cbn zeta.
  set (W := window_readings db d) in *.
  assert (Hn : Z.of_nat (List.length W) <> 0) by (destruct W; [contradiction | simpl; lia]).
  rewrite Hc. destruct (Z.of_nat (List.length W) =? 0) eqn:E; [apply Z.eqb_eq in E; contradiction|].
  rewrite aggregation_query_window. fold W.
  pose proof (scan_sums W agg_init) as H. cbn zeta in H.
  destruct H as (H1 & H2 & H3 & H4 & H5).
  change (rows_seen agg_init) with 0 in H5. rewrite Z.add_0_l in H5.
  unfold agg_finish; cbn [row_avg_ph row_avg_tds row_avg_turbidity row_avg_temperature row_count].
  destruct (mean_of_scan _ (map ph W) (rows_seen (fold_left agg_add W agg_init)) H1) as (q1 & E1 & M1);
    [rewrite length_map; exact H5 | rewrite H5; exact Hn |].
  destruct (mean_of_scan _ (map tds W) (rows_seen (fold_left agg_add W agg_init)) H2) as (q2 & E2 & M2);
    [rewrite length_map; exact H5 | rewrite H5; exact Hn |].
  destruct (mean_of_scan _ (map turbidity W) (rows_seen (fold_left agg_add W agg_init)) H3) as (q3 & E3 & M3);
    [rewrite length_map; exact H5 | rewrite H5; exact Hn |].
  destruct (mean_of_scan _ (map temperature W) (rows_seen (fold_left agg_add W agg_init)) H4) as (q4 & E4 & M4);
    [rewrite length_map; exact H5 | rewrite H5; exact Hn |].
  rewrite E1, E2, E3, E4. simpl.
  eexists; split; [reflexivity|]. simpl.
  repeat split; assumption.
Qed.

(** The aggregator does not raise, whatever the table holds. *)
Lemma compute_daily_aggregates_total (db : Database) (d : date) :
  exists o, compute_daily_aggregates db d = Ok o.
Proof.
  destruct (window_readings db d) as [|r W] eqn:E.
  - exists None. apply compute_daily_aggregates_empty; assumption.
  - destruct (compute_daily_aggregates_nonempty db d) as (a & Ha & _).
    + rewrite E; discriminate.
    + exists (Some a); assumption.
Qed.

(** ** Lists with a key *)

Section Keyed.
Variable A : Type.
Variable key : A -> Z.

Lemma nodup_key_inj (l : list A) (x y : A) :
  NoDup (map key l) -> In x l -> In y l -> key x = key y -> x = y.
Proof.
  induction l as [|h t IH]; simpl; intros Hnd Hx Hy Hk; [contradiction|].
  inversion Hnd as [|? ? Hnotin Hnd']; subst.
  destruct Hx as [-> | Hx], Hy as [-> | Hy].
  - reflexivity.
  - exfalso. apply Hnotin. rewrite Hk. apply in_map; assumption.
  - exfalso. apply Hnotin. rewrite <- Hk. apply in_map; assumption.
  - apply IH; assumption.
Qed.

Lemma filter_key_absent (l : list A) (k : Z) :
  ~ In k (map key l) -> filter (fun x => key x =? k) l = [].
Proof.
  induction l as [|h t IH]; simpl; intros Hn; [reflexivity|].
  destruct (key h =? k) eqn:E.
  - apply Z.eqb_eq in E. exfalso. apply Hn. left; assumption.
  - apply IH. intros H. apply Hn. right; assumption.
Qed.

Lemma filter_key_unique (l : list A) (x : A) :
  NoDup (map key l) -> In x l -> filter (fun y => key y =? key x) l = [x].
Proof.
  induction l as [|h t IH]; simpl; intros Hnd Hx; [contradiction|].
  inversion Hnd as [|? ? Hnotin Hnd']; subst.
  destruct Hx as [-> | Hx].
  - rewrite Z.eqb_refl. f_equal. apply filter_key_absent; assumption.
  - destruct (key h =? key x) eqn:E.
    + apply Z.eqb_eq in E. exfalso. apply Hnotin. rewrite E. apply in_map; assumption.
    + apply IH; assumption.
Qed.

Lemma find_key_unique (l : list A) (x : A) :
  NoDup (map key l) -> In x l -> find (fun y => key y =? key x) l = Some x.
Proof.
  induction l as [|h t IH]; simpl; intros Hnd Hx; [contradiction|].
  inversion Hnd as [|? ? Hnotin Hnd']; subst.
  destruct Hx as [-> | Hx].
  - rewrite Z.eqb_refl. reflexivity.
  - destruct (key h =? key x) eqn:E.
    + apply Z.eqb_eq in E. exfalso. apply Hnotin. rewrite E. apply in_map; assumption.
    + apply IH; assumption.
Qed.

Lemma find_key_none (l : list A) (k : Z) :
  find (fun y => key y =? k) l = None <-> ~ In k (map key l).
Proof.
  induction l as [|h t IH]; simpl.
  - tauto.
  - destruct (key h =? k) eqn:E.
    + apply Z.eqb_eq in E. split; [discriminate | intros H; exfalso; apply H; left; assumption].
    + apply Z.eqb_neq in E. rewrite IH. tauto.
Qed.

Lemma existsb_key (l : list A) (k : Z) :
  existsb (fun y => key y =? k) l = true <-> In k (map key l).
Proof.
  rewrite existsb_exists, in_map_iff.
  split; intros (x & H1 & H2).
  - exists x. apply Z.eqb_eq in H2. tauto.
  - exists x. rewrite Z.eqb_eq. tauto.
Qed.
End Keyed.

Lemma nodup_snoc (l : list Z) (x : Z) : NoDup l -> ~ In x l -> NoDup (l ++ [x]).
Proof.
  induction l as [|h t IH]; simpl; intros Hnd Hx.
  - constructor; [intros [] | constructor].
  - inversion Hnd as [|? ? Hh Ht]; subst. constructor.
    + rewrite in_app_iff. simpl. intros [H | [H | []]]; [contradiction | subst; tauto].
    + apply IH; tauto.
Qed.

Lemma next_id_fresh (ids : list Z) (i : Z) : In i ids -> i < next_id ids.
Proof.
  unfold next_id. induction ids as [|h t IH]; cbn [fold_right In]; intros H; [contradiction|].
  destruct H as [-> | H]; [lia | specialize (IH H); lia].
Qed.

Lemma next_id_not_in (ids : list Z) : ~ In (next_id ids) ids.
Proof. intros H. apply next_id_fresh in H. lia. Qed.

(** ** The prediction store *)

Lemma store_ok_empty : store_ok empty_db.
Proof. split; constructor. Qed.

(** The constraint is the store's own: an INSERT of a date that is in the
    table is refused, whoever issues it and whatever was looked up before. *)
Lemma insert_rejects_duplicate (db : Database) (r : DailyPrediction) :
  In (dp_date r) (map dp_date (daily_predictions db)) ->
  exists e, insert_daily_prediction date_column_unique db r = Raise (IntegrityError e).
Proof.
  intros H. unfold insert_daily_prediction.
  apply (existsb_key _ dp_date) in H. rewrite H. simpl. eexists; reflexivity.
Qed.

Lemma insert_fresh_ok (db : Database) (r : DailyPrediction) :
  store_ok db ->
  ~ In (dp_date r) (map dp_date (daily_predictions db)) ->
  let row := with_id r (next_id (map dp_id (daily_predictions db))) in
  let db' := {| sensor_readings := sensor_readings db;
                daily_predictions := daily_predictions db ++ [row] |} in
  insert_daily_prediction true db r = Ok (db', row) /\ store_ok db'.
Proof.
  intros [Hid Hdt] Hn. cbn zeta. unfold insert_daily_prediction.
  destruct (existsb _ _) eqn:E.
  - apply (existsb_key _ dp_date) in E. contradiction.
  - simpl. split; [reflexivity|].
    unfold store_ok, unique_dates. simpl. rewrite !map_app. simpl.
    split; apply nodup_snoc; try assumption. apply next_id_not_in.
Qed.

(** An UPDATE through a loaded row changes neither the ids nor the dates of
    the table, and puts the new values in the row's place. *)
Lemma update_keeps_keys (db : Database) (old new : DailyPrediction) :
  store_ok db ->
  In old (daily_predictions db) ->
  dp_id new = dp_id old ->
  dp_date new = dp_date old ->
  let db' := update_daily_prediction db new in
  map dp_id (daily_predictions db') = map dp_id (daily_predictions db) /\
  map dp_date (daily_predictions db') = map dp_date (daily_predictions db) /\
  In new (daily_predictions db') /\
  sensor_readings db' = sensor_readings db.
Proof.
  intros [Hid Hdt] Hin Hi Hd. cbn zeta. unfold update_daily_prediction. simpl.
  assert (Hsame : forall x, In x (daily_predictions db) -> dp_id x = dp_id new -> x = old).
  { intros x Hx Hxi. apply (nodup_key_inj _ dp_id (daily_predictions db)); try assumption.
    congruence. }
  repeat split.
  - rewrite map_map. apply map_ext_in. intros x Hx.
    destruct (dp_id x =? dp_id new) eqn:E; [apply Z.eqb_eq in E; congruence | reflexivity].
  - rewrite map_map. apply map_ext_in. intros x Hx.
    destruct (dp_id x =? dp_id new) eqn:E; [|reflexivity].
    apply Z.eqb_eq in E. rewrite (Hsame x Hx E). assumption.
  - apply in_map_iff. exists old. split; [|assumption].
    rewrite <- Hi, Z.eqb_refl. reflexivity.
Qed.

Lemma predictions_for_unique (db : Database) (r : DailyPrediction) :
  unique_dates db -> In r (daily_predictions db) ->
  predictions_for db (dp_date r) = [r].
Proof. intros. apply (filter_key_unique _ dp_date); assumption. Qed.

Lemma lookup_some (db : Database) (d : date) (ex : DailyPrediction) :
  first_prediction_by_date db d = Some ex ->
  In ex (daily_predictions db) /\ dp_date ex = d.
Proof.
  intros H. apply find_some in H. destruct H as [H1 H2].
  apply Z.eqb_eq in H2. tauto.
Qed.

Lemma lookup_unique (db : Database) (r : DailyPrediction) :
  unique_dates db -> In r (daily_predictions db) ->
  first_prediction_by_date db (dp_date r) = Some r.
Proof. intros. apply (find_key_unique _ dp_date); assumption. Qed.

Lemma lookup_is_sound (db : Database) (d : date) :
  lookup_sound db d (first_prediction_by_date db d).
Proof.
  unfold lookup_sound. destruct (first_prediction_by_date db d) as [ex|] eqn:E.
  - apply lookup_some in E. destruct E as [H1 H2]. split; [assumption|].
    exists ex. auto.
  - apply (find_key_none _ dp_date). assumption.
Qed.

(** The write after a sound lookup, on a store that keeps its constraints:
    it commits, and leaves the row for [d] in a store that still keeps
    them. An existing row is updated where it stands. *)
Lemma write_after_sound_lookup (db : Database) (c : Clock) (d : date) (a : Aggregates)
    (label : string) (conf : option Q) (existing : option DailyPrediction) :
  store_ok db ->
  lookup_sound db d existing ->
  exists db' r,
    write_daily_prediction true db c d a label conf existing = Ok (db', r) /\
    store_ok db' /\ In r (daily_predictions db') /\ dp_date r = d /\
    holds r a label conf /\ created_at r = datetime_utcnow c /\
    sensor_readings db' = sensor_readings db /\
    match existing with
    | Some ex =>
        db' = update_daily_prediction db r /\ dp_id r = dp_id ex /\
        map dp_id (daily_predictions db') = map dp_id (daily_predictions db) /\
        map dp_date (daily_predictions db') = map dp_date (daily_predictions db)
    | None =>
        daily_predictions db' = daily_predictions db ++ [r]
    end.
Proof.
  intros Hok Hl. destruct existing as [ex|]; simpl in Hl; simpl.
  - destruct Hl as (Hd & row & Hin & Hrid & Hrd).
    set (r := assign_prediction ex a label conf (datetime_utcnow c)).
    assert (Hi' : dp_id r = dp_id row) by (symmetry; exact Hrid).
    assert (Hd' : dp_date r = dp_date row) by (simpl; congruence).
    destruct (update_keeps_keys db row r Hok Hin Hi' Hd') as (Hi & Hdt & Hr & Hs).
    exists (update_daily_prediction db r), r.
    repeat split; try assumption; try reflexivity.
    + unfold store_ok, unique_dates. rewrite Hi. apply Hok.
    + unfold unique_dates. rewrite Hdt. apply Hok.
  - set (n := new_prediction d a label conf (datetime_utcnow c)).
    destruct (insert_fresh_ok db n Hok Hl) as [Hins Hok'].
    rewrite Hins. eexists; eexists. split; [reflexivity|].
    repeat split; try apply Hok'; try reflexivity.
    simpl. apply in_or_app. right. left. reflexivity.
Qed.

(** The upsert contract of [create_daily_prediction]. *)
Lemma create_daily_prediction_upsert (db : Database) (c : Clock) (d : date)
    (a : Aggregates) (label : string) (conf : option Q) :
  store_ok db ->
  exists db' r,
    create_daily_prediction db c d a label conf = Ok (db', r) /\
    store_ok db' /\ predictions_for db' d = [r] /\ dp_date r = d /\
    holds r a label conf /\ created_at r = datetime_utcnow c /\
    sensor_readings db' = sensor_readings db /\
    match first_prediction_by_date db d with
    | Some ex =>
        db' = update_daily_prediction db r /\ dp_id r = dp_id ex /\
        List.length (daily_predictions db') = List.length (daily_predictions db)
    | None =>
        daily_predictions db' = daily_predictions db ++ [r]
    end.
Proof.
  intros Hok. unfold create_daily_prediction, date_column_unique.
  destruct (write_after_sound_lookup db c d a label conf
              (first_prediction_by_date db d) Hok (lookup_is_sound db d))
    as (db' & r & Hw & Hok' & Hin & Hd & Hh & Hc & Hs & Hm).
  exists db', r. rewrite Hw.
  split; [reflexivity|]. split; [assumption|].
  split; [rewrite <- Hd; apply predictions_for_unique; [apply Hok' | assumption]|].
  do 4 (split; [assumption|]).
  revert Hm. destruct (first_prediction_by_date db d) as [ex|]; intros Hm; [|assumption].
  destruct Hm as (H1 & H2 & H3 & H4). repeat split; try assumption.
  rewrite <- (length_map dp_id), H3, length_map. reflexivity.
Qed.

(** ** The daily job *)

Lemma run_completed_inv (ml : option MLService) (c cw : Clock) (db db1 : Database)
    (r1 : DailyPrediction) :
  run_daily_prediction ml c cw db = Ok (db1, Completed r1) ->
  exists a p,
    compute_daily_aggregates db (date_today c - 1) = Ok (Some a) /\
    call_ml_service_predict ml a = Ok p /\
    create_daily_prediction db cw (date_today c - 1) a (fst p) (snd p) = Ok (db1, r1).
Proof.
  unfold run_daily_prediction, job_try_block. cbn zeta.
  destruct (compute_daily_aggregates db (date_today c - 1)) as [[a|]|e] eqn:E1; simpl;
    try discriminate.
  destruct (call_ml_service_predict ml a) as [p|e] eqn:E2; simpl; try discriminate.
  destruct (create_daily_prediction db cw (date_today c - 1) a (fst p) (snd p))
    as [[db' r]|e] eqn:E3; simpl; try discriminate.
  intros H. injection H as Hdb Hr. subst db' r. exists a, p. auto.
Qed.

Lemma run_completed_intro (ml : option MLService) (c cw : Clock) (db db1 : Database)
    (r1 : DailyPrediction) (a : Aggregates) (p : string * option Q) :
  compute_daily_aggregates db (date_today c - 1) = Ok (Some a) ->
  call_ml_service_predict ml a = Ok p ->
  create_daily_prediction db cw (date_today c - 1) a (fst p) (snd p) = Ok (db1, r1) ->
  run_daily_prediction ml c cw db = Ok (db1, Completed r1).
Proof.
  intros H1 H2 H3. unfold run_daily_prediction, job_try_block. cbn zeta.
  rewrite H1. simpl. rewrite H2. simpl. rewrite H3. reflexivity.
Qed.

(** The job returns on every path: nothing it meets leaves it as an
    exception. *)
Lemma run_daily_prediction_returns (ml : option MLService) (c cw : Clock) (db : Database) :
  exists db' o, run_daily_prediction ml c cw db = Ok (db', o).
Proof.
  unfold run_daily_prediction.
  destruct (job_try_block ml c cw db) as [[db' [r|]]|e]; eexists; eexists; reflexivity.
Qed.

(** Only a completed run changes the store. *)
Lemma run_daily_prediction_frame (ml : option MLService) (c cw : Clock)
    (db db' : Database) (o : JobOutcome) :
  run_daily_prediction ml c cw db = Ok (db', o) ->
  match o with
  | Completed _ => True
  | SkippedNoData | Failed _ => db' = db
  end.
Proof.
  unfold run_daily_prediction, job_try_block. cbn zeta.
  destruct (compute_daily_aggregates db (date_today c - 1)) as [[a|]|e]; simpl.
  - destruct (call_ml_service_predict ml a) as [p|e]; simpl.
    + destruct (create_daily_prediction db cw (date_today c - 1) a (fst p) (snd p))
        as [[db2 r]|e]; simpl; intros H; injection H as <- <-; auto.
    + intros H; injection H as <- <-; auto.
  - intros H; injection H as <- <-; auto.
  - intros H; injection H as <- <-; auto.
Qed.

(** ** The aggregator (claims C3 and C4) *)

(** With sums and quotients taken exactly, the averages of a date whose
    window holds a reading are the arithmetic means over the readings of the
    window. (At binary64 they are not, see
    [binary64_average_is_not_the_mean].) *)
Lemma exact_means_over_window (db : Database) (d : date) :
  window_readings db d <> [] ->
  exists a,
    compute_daily_aggregates db d = Ok (Some a) /\
    (agg_avg_ph a == arithmetic_mean (map ph (window_readings db d)))%Q /\
    (agg_avg_tds a == arithmetic_mean (map tds (window_readings db d)))%Q /\
    (agg_avg_turbidity a == arithmetic_mean (map turbidity (window_readings db d)))%Q /\
    (agg_avg_temperature a == arithmetic_mean (map temperature (window_readings db d)))%Q /\
    agg_reading_count a = Z.of_nat (List.length (window_readings db d)).
Proof. apply compute_daily_aggregates_nonempty. Qed.

Lemma scan_is_fold (proj : SensorReading -> Q) (get : AggAcc -> Q) (rows : list SensorReading) :
  (forall acc r, get (agg_add acc r) = (get acc + proj r)%Q) ->
  forall acc, get (fold_left agg_add rows acc) = fold_left Qplus (map proj rows) (get acc).
Proof.
  intros Hget. induction rows as [|r rows IH]; intros acc; simpl; [reflexivity|].
  rewrite IH, Hget. reflexivity.
Qed.

(** Each average of the aggregation query is [avg_over], at exact
    arithmetic, of the values of the window's readings. *)
Lemma aggregation_query_is_avg_over (db : Database) (d : date) :
  let res := aggregation_query db (combine d time_min) (combine d time_max) in
  let avgq := avg_over Q 0%Q Qplus (fun total n => (total / inject_Z n)%Q) in
  row_avg_ph res = avgq (map ph (window_readings db d)) /\
  row_avg_tds res = avgq (map tds (window_readings db d)) /\
  row_avg_turbidity res = avgq (map turbidity (window_readings db d)) /\
  row_avg_temperature res = avgq (map temperature (window_readings db d)).
Proof.
  cbn zeta. rewrite aggregation_query_window.
  pose proof (scan_sums (window_readings db d) agg_init) as H. cbn zeta in H.
  destruct H as (_ & _ & _ & _ & Hn). change (rows_seen agg_init) with 0 in Hn.
  rewrite Z.add_0_l in Hn.
  unfold agg_finish, avg_over, sql_avg. simpl. rewrite !length_map, Hn.
  rewrite (scan_is_fold ph sum_ph), (scan_is_fold tds sum_tds),
    (scan_is_fold turbidity sum_turbidity), (scan_is_fold temperature sum_temperature);
    try (intros; reflexivity).
  repeat split; reflexivity.
Qed.





(** Scenario A of the specification, with sums and quotients taken
    exactly: acidity 7.0, 7.2, 7.4 on 2024-01-01 gives mean 7.2 and count 3; the readings one microsecond before the day
    and at the next midnight are left out, the ones at the first and the
    last microsecond of the day are in. *)
Example scenario_a :
  exists a,
    compute_daily_aggregates db_three_readings jan1 = Ok (Some a) /\
    (agg_avg_ph a == 72 # 10)%Q /\ agg_reading_count a = 3 /\
    map sr_id (window_readings db_three_readings jan1) = [2; 3; 4].
Proof.
  eexists. split; [vm_compute; reflexivity|].
  repeat split; reflexivity.
Qed.

(** Readings outside the window may be added anywhere in the table. *)
Lemma readings_outside_contribute_nothing (l1 l2 out : list SensorReading)
    (preds : list DailyPrediction) (d : date) :
  Forall (fun r => ~ within_day d r) out ->
  compute_daily_aggregates
    {| sensor_readings := l1 ++ out ++ l2; daily_predictions := preds |} d =
  compute_daily_aggregates
    {| sensor_readings := l1 ++ l2; daily_predictions := preds |} d.
Proof.
  intros H. apply compute_daily_aggregates_window.
  unfold window_readings. simpl. rewrite !filter_app.
  replace (filter (in_window (start_of_day d) (end_of_day d)) out) with (@nil SensorReading);
    [reflexivity|].
  symmetry. induction H as [|r out Hr _ IH]; simpl; [reflexivity|].
  destruct (in_window (start_of_day d) (end_of_day d) r) eqn:E; [|assumption].
  apply in_window_iff in E. contradiction.
Qed.

(** C3. For a date with no reading in its window the aggregator returns
    the empty signal [None] (a value, not an exception), and the job run
    for that date skips: it returns the store it was given, so every
    prediction row, one for that date included, is as it was. *)
Theorem no_readings_job_skips (ml : option MLService) (c cw : Clock)
    (db : Database) (d : date) :
  date_today c - 1 = d ->
  window_readings db d = [] ->
  compute_daily_aggregates db d = Ok None /\
  run_daily_prediction ml c cw db = Ok (db, SkippedNoData).
Proof.
  intros Hd Hw. pose proof (compute_daily_aggregates_empty db d Hw) as H.
  split; [assumption|].
  unfold run_daily_prediction, job_try_block. cbn zeta.
  rewrite Hd, H. reflexivity.
Qed.

Lemma no_readings_job_skips_witness :
  compute_daily_aggregates db_stale (mkdate 2024 1 3) = Ok None /\
  run_daily_prediction (Some (loaded_service forest_model))
    (clock_utc (mkdatetime 2024 1 4 0 0 0)) (clock_utc (mkdatetime 2024 1 4 0 0 2))
    db_stale = Ok (db_stale, SkippedNoData).
Proof.
  apply (no_readings_job_skips (Some (loaded_service forest_model))
           (clock_utc (mkdatetime 2024 1 4 0 0 0)) (clock_utc (mkdatetime 2024 1 4 0 0 2))
           db_stale (mkdate 2024 1 3)).
  - vm_compute. reflexivity.
  - vm_compute. reflexivity.
Defined.

Example mkdate_is_toordinal :
  mkdate 1 1 1 = 1 /\ mkdate 1970 1 1 = 719163 /\ mkdate 2024 1 1 = 738886 /\
  mkdate 2024 2 29 + 1 = mkdate 2024 3 1 /\ mkdate 2023 12 31 + 1 = mkdate 2024 1 1.
Proof. repeat split; reflexivity. Qed.

(** ** Re-running the job (claim C1) *)

Lemma rerun_after_completed (ml : option MLService) (c1 cw1 c2 cw2 : Clock)
    (db db1 : Database) (r1 : DailyPrediction) :
  store_ok db ->
  date_today c2 = date_today c1 ->
  run_daily_prediction ml c1 cw1 db = Ok (db1, Completed r1) ->
  exists db2 r2 a p,
    run_daily_prediction ml c2 cw2 db1 = Ok (db2, Completed r2) /\
    compute_daily_aggregates db (date_today c1 - 1) = Ok (Some a) /\
    compute_daily_aggregates db1 (date_today c1 - 1) = Ok (Some a) /\
    call_ml_service_predict ml a = Ok p /\
    holds r1 a (fst p) (snd p) /\
    holds r2 a (fst p) (snd p) /\
    predictions_for db1 (date_today c1 - 1) = [r1] /\
    predictions_for db2 (date_today c1 - 1) = [r2] /\
    same_but_stamp r1 r2 /\
    created_at r2 = datetime_utcnow cw2 /\
    reading_count r2 = Z.of_nat (List.length (window_readings db (date_today c1 - 1))) /\
    db2 = update_daily_prediction db1 r2 /\
    List.length (daily_predictions db2) = List.length (daily_predictions db1) /\
    sensor_readings db2 = sensor_readings db.
Proof.
  intros Hok Hday Hrun.
  set (d := date_today c1 - 1).
  destruct (run_completed_inv _ _ _ _ _ _ Hrun) as (a & p & Hagg & Hcall & Hcreate).
  fold d in Hagg, Hcreate.
  (* the first run *)
  destruct (create_daily_prediction_upsert db cw1 d a (fst p) (snd p) Hok)
    as (db1' & r1' & Hc1 & Hok1 & Hfor1 & Hd1 & Hh1 & _ & Hs1 & _).
  rewrite Hcreate in Hc1. injection Hc1 as <- <-.
  assert (Hin1 : In r1 (daily_predictions db1)).
  { assert (H : In r1 (predictions_for db1 d)) by (rewrite Hfor1; left; reflexivity).
    apply filter_In in H. tauto. }
  (* the second run sees the same readings, hence the same aggregate *)
  assert (Hagg2 : compute_daily_aggregates db1 d = Ok (Some a)).
  { rewrite <- Hagg. apply compute_daily_aggregates_window.
    unfold window_readings. rewrite Hs1. reflexivity. }
  destruct (create_daily_prediction_upsert db1 cw2 d a (fst p) (snd p) Hok1)
    as (db2 & r2 & Hc2 & Hok2 & Hfor2 & Hd2 & Hh2 & Hst2 & Hs2 & Hm2).
  assert (Hlook : first_prediction_by_date db1 d = Some r1).
  { rewrite <- Hd1. apply lookup_unique; [apply Hok1 | assumption]. }
  rewrite Hlook in Hm2. destruct Hm2 as (Hupd & Hid & Hlen).
  exists db2, r2, a, p.
  split.
  { apply run_completed_intro with (a := a) (p := p); rewrite ?Hday; fold d; assumption. }
  do 5 (split; [assumption|]).
  split; [assumption|]. split; [assumption|].
  split.
  { unfold same_but_stamp. unfold holds in Hh1, Hh2.
    destruct Hh1 as (A1 & A2 & A3 & A4 & A5 & A6 & A7).
    destruct Hh2 as (B1 & B2 & B3 & B4 & B5 & B6 & B7).
    repeat split; congruence. }
  split; [assumption|].
  split.
  { destruct Hh2 as (_ & _ & _ & _ & _ & _ & B7). rewrite B7.
    destruct (window_readings db d) as [|x W] eqn:EW.
    - rewrite (compute_daily_aggregates_empty db d EW) in Hagg. discriminate.
    - destruct (compute_daily_aggregates_nonempty db d) as (a' & Ha' & _ & _ & _ & _ & Hn).
      + rewrite EW; discriminate.
      + rewrite Hagg in Ha'. injection Ha' as <-. rewrite Hn, EW. reflexivity. }
  split; [assumption|]. split; [assumption|].
  rewrite Hs2. assumption.
Qed.

(** A write that is refused is refused at any clock. *)
Lemma write_raise_any_clock (unique : bool) (db : Database) (c1 c2 : Clock) (d : date)
    (a : Aggregates) (label : string) (conf : option Q)
    (existing : option DailyPrediction) (e : PyExc) :
  write_daily_prediction unique db c1 d a label conf existing = Raise e ->
  write_daily_prediction unique db c2 d a label conf existing = Raise e.
Proof.
  destruct existing as [ex|]; simpl; [discriminate|].
  unfold insert_daily_prediction. simpl.
  destruct (unique && existsb (fun x => dp_date x =? d) (daily_predictions db));
    [auto | discriminate].
Qed.

(** A run that skipped or failed left the store as it was, and a second
    run for the same date ends the same way. *)
Lemma rerun_after_not_completed (ml : option MLService) (c1 cw1 c2 cw2 : Clock)
    (db db1 : Database) (o1 : JobOutcome) :
  date_today c2 = date_today c1 ->
  run_daily_prediction ml c1 cw1 db = Ok (db1, o1) ->
  (forall r, o1 <> Completed r) ->
  db1 = db /\ run_daily_prediction ml c2 cw2 db = Ok (db, o1).
Proof.
  intros Hday. unfold run_daily_prediction, job_try_block. cbn zeta. rewrite Hday.
  destruct (compute_daily_aggregates db (date_today c1 - 1)) as [[a|]|e]; simpl.
  - destruct (call_ml_service_predict ml a) as [p|e]; simpl.
    + unfold create_daily_prediction.
      destruct (write_daily_prediction date_column_unique db cw1 (date_today c1 - 1) a
                  (fst p) (snd p) (first_prediction_by_date db (date_today c1 - 1)))
        as [[db' r]|e] eqn:E; simpl.
      * intros H Hn. injection H as <- <-. exfalso. apply (Hn r). reflexivity.
      * intros H _. injection H as <- <-.
        rewrite (write_raise_any_clock _ _ cw1 cw2 _ _ _ _ _ _ E). simpl. auto.
    + intros H _. injection H as <- <-. auto.
  - intros H _. injection H as <- <-. auto.
  - intros H _. injection H as <- <-. auto.
Qed.

Lemma unique_dates_at_most_one (db : Database) (d : date) :
  unique_dates db -> (List.length (predictions_for db d) <= 1)%nat.
Proof.
  intros H. unfold predictions_for.
  destruct (find (fun r => dp_date r =? d) (daily_predictions db)) as [r|] eqn:E.
  - apply find_some in E. destruct E as [Hin Hd]. apply Z.eqb_eq in Hd. subst d.
    rewrite (filter_key_unique _ dp_date _ r H Hin). simpl. lia.
  - apply (find_key_none _ dp_date) in E.
    rewrite (filter_key_absent _ dp_date _ d E). simpl. lia.
Qed.

(** C1. For every date and every store that keeps its constraints, two
    runs of the job for the date over the same readings leave at most one
    row for the date, and the second run ends as the first did. When the
    first run stored its prediction, there is exactly one row for the date
    after the first run and after the second, and after each run that row
    carries the run's aggregate (the four averages and the count that
    [compute_daily_aggregates] returns, the same for both runs) and the
    label and confidence the classifier returned for it, whatever a row for
    the date held before. The second run updates the row where it stands
    (the table is the first run's with that row replaced: same id, same
    length); all fields but the stamp are equal, the stamp is the second
    run's clock, and the reading count is again the number of readings in
    the window, not a sum. When the first run skipped or failed, both runs
    leave the store as it was. *)
Theorem job_rerun_one_record (ml : option MLService) (c1 cw1 c2 cw2 : Clock)
    (db db1 : Database) (o1 : JobOutcome) :
  store_ok db ->
  date_today c2 = date_today c1 ->
  run_daily_prediction ml c1 cw1 db = Ok (db1, o1) ->
  exists db2 o2,
    run_daily_prediction ml c2 cw2 db1 = Ok (db2, o2) /\
    (List.length (predictions_for db2 (date_today c1 - 1)%Z) <= 1)%nat /\
    match o1 with
    | Completed r1 =>
        exists r2 a p,
          o2 = Completed r2 /\
          compute_daily_aggregates db (date_today c1 - 1) = Ok (Some a) /\
          compute_daily_aggregates db1 (date_today c1 - 1) = Ok (Some a) /\
          call_ml_service_predict ml a = Ok p /\
          holds r1 a (fst p) (snd p) /\
          holds r2 a (fst p) (snd p) /\
          predictions_for db1 (date_today c1 - 1) = [r1] /\
          predictions_for db2 (date_today c1 - 1) = [r2] /\
          same_but_stamp r1 r2 /\
          created_at r2 = datetime_utcnow cw2 /\
          reading_count r2 =
            Z.of_nat (List.length (window_readings db (date_today c1 - 1))) /\
          db2 = update_daily_prediction db1 r2 /\
          List.length (daily_predictions db2) = List.length (daily_predictions db1) /\
          sensor_readings db2 = sensor_readings db
    | SkippedNoData | Failed _ => o2 = o1 /\ db1 = db /\ db2 = db
    end.
Proof.
  intros Hok Hday Hrun.
  destruct o1 as [r1| |e].
  - destruct (rerun_after_completed ml c1 cw1 c2 cw2 db db1 r1 Hok Hday Hrun)
      as (db2 & r2 & a & p & H1 & H2 & H3 & H4 & H5 & H6 & H7 & H8 & H9).
    exists db2, (Completed r2). split; [assumption|].
    split; [rewrite H8; simpl; lia|].
    exists r2, a, p. split; [reflexivity|].
    do 7 (split; [assumption|]). assumption.
  - destruct (rerun_after_not_completed ml c1 cw1 c2 cw2 db db1 SkippedNoData Hday Hrun)
      as [-> H]; [discriminate|].
    exists db, SkippedNoData. split; [assumption|].
    split; [apply unique_dates_at_most_one; apply Hok | auto].
  - destruct (rerun_after_not_completed ml c1 cw1 c2 cw2 db db1 (Failed e) Hday Hrun)
      as [-> H]; [discriminate|].
    exists db, (Failed e). split; [assumption|].
    split; [apply unique_dates_at_most_one; apply Hok | auto].
Qed.

(** The store holds a stale row for 2024-01-01 (acidity 1, "Unsafe", no
    confidence, count 99). The first run overwrites it with what it
    computed, the second leaves those values and moves the stamp. *)
Lemma job_rerun_one_record_witness :
  exists db1 r1,
    run_daily_prediction (Some (loaded_service forest_model))
      (clock_utc (mkdatetime 2024 1 2 0 0 0)) (clock_utc (mkdatetime 2024 1 2 0 0 1))
      db_stale_jan1 = Ok (db1, Completed r1) /\
    daily_predictions db1 = [r1] /\ dp_id r1 = dp_id stale_jan1 /\
    prediction r1 = "Safe"%string /\ prediction_confidence r1 = Some (91 # 100) /\
    reading_count r1 = 3 /\
    exists db2 o2,
      run_daily_prediction (Some (loaded_service forest_model))
        (clock_utc (mkdatetime 2024 1 2 9 30 0)) (clock_utc (mkdatetime 2024 1 2 9 30 1))
        db1 = Ok (db2, o2) /\
      (List.length (predictions_for db2
         (date_today (clock_utc (mkdatetime 2024 1 2 0 0 0)) - 1)%Z) <= 1)%nat /\
      exists r2 a p,
        o2 = Completed r2 /\
        compute_daily_aggregates db_stale_jan1
          (date_today (clock_utc (mkdatetime 2024 1 2 0 0 0)) - 1) = Ok (Some a) /\
        compute_daily_aggregates db1
          (date_today (clock_utc (mkdatetime 2024 1 2 0 0 0)) - 1) = Ok (Some a) /\
        call_ml_service_predict (Some (loaded_service forest_model)) a = Ok p /\
        holds r1 a (fst p) (snd p) /\
        holds r2 a (fst p) (snd p) /\
        predictions_for db1 (date_today (clock_utc (mkdatetime 2024 1 2 0 0 0)) - 1) = [r1] /\
        predictions_for db2 (date_today (clock_utc (mkdatetime 2024 1 2 0 0 0)) - 1) = [r2] /\
        same_but_stamp r1 r2 /\
        created_at r2 = datetime_utcnow (clock_utc (mkdatetime 2024 1 2 9 30 1)) /\
        reading_count r2 =
          Z.of_nat (List.length (window_readings db_stale_jan1
                      (date_today (clock_utc (mkdatetime 2024 1 2 0 0 0)) - 1))) /\
        db2 = update_daily_prediction db1 r2 /\
        List.length (daily_predictions db2) = List.length (daily_predictions db1) /\
        sensor_readings db2 = sensor_readings db_stale_jan1.
Proof.
  eexists. eexists. split; [vm_compute; reflexivity|].
  do 5 (split; [vm_compute; reflexivity|]).
  apply (job_rerun_one_record (Some (loaded_service forest_model))
           (clock_utc (mkdatetime 2024 1 2 0 0 0)) (clock_utc (mkdatetime 2024 1 2 0 0 1))
           (clock_utc (mkdatetime 2024 1 2 9 30 0)) (clock_utc (mkdatetime 2024 1 2 9 30 1))
           db_stale_jan1 _ (Completed _)).
  - split; (constructor; [simpl; tauto | constructor]).
  - vm_compute. reflexivity.
  - vm_compute. reflexivity.
Defined.

(** Scenario C of the specification: the job has stored a prediction for
    2024-01-01 over two readings; one more reading arrives for that day and
    the job is run again for it. The row is updated where it stands: one
    row, the same id, and the count is 3 (not 2 + 3). *)
Example scenario_c :
  exists db1 r1 db2 r2,
    run_daily_prediction (Some (loaded_service forest_model))
      clock_local_midnight clock_local_midnight db_morning = Ok (db1, Completed r1) /\
    run_daily_prediction (Some (loaded_service forest_model))
      (clock_plus_0530 (mkdatetime 2024 1 1 21 0 0))
      (clock_plus_0530 (mkdatetime 2024 1 1 21 0 1))
      (fst (create_sensor_reading PayloadWithTime p_ph p_tds p_turbidity p_temperature
              db1 (clock_plus_0530 (mkdatetime 2024 1 1 20 0 0)) payload_backdated))
    = Ok (db2, Completed r2) /\
    daily_predictions db1 = [r1] /\ daily_predictions db2 = [r2] /\
    dp_id r2 = dp_id r1 /\ dp_date r2 = dp_date r1 /\
    reading_count r1 = 2 /\ reading_count r2 = 3 /\
    prediction r2 = "Safe"%string /\ prediction_confidence r2 = Some (91 # 100).
Proof.
  do 4 eexists.
  split; [vm_compute; reflexivity|].
  split; [vm_compute; reflexivity|].
  repeat (split; [reflexivity|]). reflexivity.
Qed.

(** ** A failing classification (claim C5) *)

Lemma not_loaded_raises (ml : option MLService) (a : Aggregates) :
  artifacts_not_loaded ml -> exists e, call_ml_service_predict ml a = Raise e.
Proof.
  unfold artifacts_not_loaded, call_ml_service_predict, predict.
  destruct ml as [svc|]; [|eexists; reflexivity].
  intros [H | H]; rewrite H.
  - eexists; reflexivity.
  - destruct (model svc); eexists; reflexivity.
Qed.

Lemma failed_classification_run (ml : option MLService) (c cw : Clock) (db : Database)
    (a : Aggregates) (e : PyExc) :
  compute_daily_aggregates db (date_today c - 1) = Ok (Some a) ->
  call_ml_service_predict ml a = Raise e ->
  run_daily_prediction ml c cw db = Ok (db, Failed e).
Proof.
  intros H1 H2. unfold run_daily_prediction, job_try_block. cbn zeta.
  rewrite H1. simpl. rewrite H2. reflexivity.
Qed.

(** C5. In a run that reaches the classification (the date has an
    aggregate), a classification that raises, whatever it raises, ends the
    run as failed: the job returns (the exception does not leave it) and
    returns the store it was given, so no prediction row is new or changed.
    Artifacts that are not loaded are one such case: the call raises. *)
Theorem classification_failure_job_fails (ml : option MLService) (c cw : Clock)
    (db : Database) (a : Aggregates) :
  compute_daily_aggregates db (date_today c - 1) = Ok (Some a) ->
  (forall e, call_ml_service_predict ml a = Raise e ->
             run_daily_prediction ml c cw db = Ok (db, Failed e)) /\
  (artifacts_not_loaded ml ->
   exists e, call_ml_service_predict ml a = Raise e /\
             run_daily_prediction ml c cw db = Ok (db, Failed e)).
Proof.
  intros Hagg. split.
  - intros e He. apply failed_classification_run with (a := a); assumption.
  - intros Hn. destruct (not_loaded_raises ml a Hn) as [e He].
    exists e. split; [assumption|].
    apply failed_classification_run with (a := a); assumption.
Qed.

Lemma classification_failure_job_fails_witness :
  exists a,
    compute_daily_aggregates db_three_readings
      (date_today (clock_utc (mkdatetime 2024 1 2 0 0 0)) - 1) = Ok (Some a) /\
    (forall e, call_ml_service_predict (Some unloaded_service) a = Raise e ->
               run_daily_prediction (Some unloaded_service)
                 (clock_utc (mkdatetime 2024 1 2 0 0 0))
                 (clock_utc (mkdatetime 2024 1 2 0 0 1)) db_three_readings =
               Ok (db_three_readings, Failed e)) /\
    (artifacts_not_loaded (Some unloaded_service) ->
     exists e, call_ml_service_predict (Some unloaded_service) a = Raise e /\
               run_daily_prediction (Some unloaded_service)
                 (clock_utc (mkdatetime 2024 1 2 0 0 0))
                 (clock_utc (mkdatetime 2024 1 2 0 0 1)) db_three_readings =
               Ok (db_three_readings, Failed e)).
Proof.
  eexists. split.
  - vm_compute. reflexivity.
  - apply (classification_failure_job_fails (Some unloaded_service)
             (clock_utc (mkdatetime 2024 1 2 0 0 0))
             (clock_utc (mkdatetime 2024 1 2 0 0 1)) db_three_readings).
    vm_compute. reflexivity.
Defined.

(** Scenario D of the specification, with the service unbound and with the
    service not loaded. *)
Example scenario_d :
  run_daily_prediction None (clock_utc (mkdatetime 2024 1 2 0 0 0))
    (clock_utc (mkdatetime 2024 1 2 0 0 1)) db_three_readings =
  Ok (db_three_readings,
      Failed (AttributeError "'NoneType' object has no attribute 'predict'")) /\
  run_daily_prediction (Some unloaded_service) (clock_utc (mkdatetime 2024 1 2 0 0 0))
    (clock_utc (mkdatetime 2024 1 2 0 0 1)) db_three_readings =
  Ok (db_three_readings,
      Failed (RuntimeError "ML artifacts not loaded. Call load_artifacts() first.")).
Proof. split; vm_compute; reflexivity. Qed.

(** ** Ingestion (claim C10) *)

(** C10. Whatever the type of the payload and whatever else it carries,
    the stored reading has the four values of the payload and the store's
    own [datetime.utcnow()] at the write as timestamp; the row is appended
    and nothing else changes. Two payloads with the same four values store
    the same row: no other part of the payload, a timestamp included,
    reaches the store. *)
Theorem ingestion_timestamp_is_store_clock (In_ : Type)
    (in_ph in_tds in_turbidity in_temperature : In_ -> Q)
    (db : Database) (c : Clock) (reading : In_) :
  timestamp (snd (create_sensor_reading In_ in_ph in_tds in_turbidity in_temperature
                    db c reading)) = datetime_utcnow c /\
  ph (snd (create_sensor_reading In_ in_ph in_tds in_turbidity in_temperature
             db c reading)) = in_ph reading /\
  tds (snd (create_sensor_reading In_ in_ph in_tds in_turbidity in_temperature
              db c reading)) = in_tds reading /\
  turbidity (snd (create_sensor_reading In_ in_ph in_tds in_turbidity in_temperature
                    db c reading)) = in_turbidity reading /\
  temperature (snd (create_sensor_reading In_ in_ph in_tds in_turbidity in_temperature
                      db c reading)) = in_temperature reading /\
  sensor_readings (fst (create_sensor_reading In_ in_ph in_tds in_turbidity in_temperature
                          db c reading)) =
    sensor_readings db ++
    [snd (create_sensor_reading In_ in_ph in_tds in_turbidity in_temperature db c reading)] /\
  daily_predictions (fst (create_sensor_reading In_ in_ph in_tds in_turbidity in_temperature
                            db c reading)) = daily_predictions db /\
  (forall reading' : In_,
     in_ph reading' = in_ph reading -> in_tds reading' = in_tds reading ->
     in_turbidity reading' = in_turbidity reading ->
     in_temperature reading' = in_temperature reading ->
     create_sensor_reading In_ in_ph in_tds in_turbidity in_temperature db c reading' =
     create_sensor_reading In_ in_ph in_tds in_turbidity in_temperature db c reading).
Proof.
  unfold create_sensor_reading, insert_sensor_reading. simpl.
  repeat split; try reflexivity.
  intros reading' H1 H2 H3 H4. rewrite H1, H2, H3, H4. reflexivity.
Qed.

(** A payload that carries a timestamp of a year before and one that
    carries a timestamp of a year after store the same row, stamped with the
    store's clock. *)
Example backdated_payload_ignored :
  create_sensor_reading PayloadWithTime p_ph p_tds p_turbidity p_temperature
    db_three_readings (clock_utc (mkdatetime 2024 1 2 8 0 0)) payload_backdated =
  create_sensor_reading PayloadWithTime p_ph p_tds p_turbidity p_temperature
    db_three_readings (clock_utc (mkdatetime 2024 1 2 8 0 0)) payload_postdated /\
  timestamp (snd (create_sensor_reading PayloadWithTime p_ph p_tds p_turbidity p_temperature
                    db_three_readings (clock_utc (mkdatetime 2024 1 2 8 0 0))
                    payload_backdated)) = mkdatetime 2024 1 2 8 0 0.
Proof. split; reflexivity. Qed.

(** ** The classifier port (claim C7) *)

Lemma py_max_fold (t : list Q) :
  forall x,
    let m := fold_left (fun cur item => if Qle_bool item cur then cur else item) t x in
    In m (x :: t) /\ (x <= m)%Q /\ Forall (fun q => (q <= m)%Q) t.
Proof.
  induction t as [|h t IH]; intros x; cbn zeta.
  - simpl. repeat split; [left; reflexivity | apply Qle_refl | constructor].
  - cbn [fold_left].
    destruct (Qle_bool h x) eqn:E.
    + apply Qle_bool_iff in E.
      destruct (IH x) as (Hin & Hle & Hall). repeat split.
      * destruct Hin as [H | H]; [left; assumption | right; right; assumption].
      * assumption.
      * constructor; [apply Qle_trans with x; assumption | assumption].
    + assert (Hlt : (x < h)%Q).
      { apply Qnot_le_lt. intros H. apply Qle_bool_iff in H. congruence. }
      destruct (IH h) as (Hin & Hle & Hall). repeat split.
      * right. assumption.
      * apply Qle_trans with h; [apply Qlt_le_weak; assumption | assumption].
      * constructor; assumption.
Qed.

(** [max(probabilities)] is an element of the vector and bounds all of it. *)
Lemma py_max_spec (l : list Q) (m : Q) :
  py_max l = Ok m -> In m l /\ Forall (fun q => (q <= m)%Q) l.
Proof.
  destruct l as [|x t]; simpl; [discriminate|].
  intros H. injection H as <-.
  destruct (py_max_fold t x) as (Hin & Hle & Hall).
  split; [assumption | constructor; assumption].
Qed.

(** What a call of [predict] that returns has done. *)
Lemma predict_inv (svc : MLService) (v1 v2 v3 v4 : Q) (lbl : string) (cf : option Q) :
  predict svc v1 v2 v3 v4 = Ok (lbl, cf) ->
  exists m enc y,
    model svc = Some m /\ label_encoder svc = Some enc /\
    model_predict m (v1, v2, v3, v4) = Ok y /\
    inverse_transform enc y = Ok lbl /\
    match model_predict_proba m with
    | Some proba =>
        exists probabilities c,
          proba (v1, v2, v3, v4) = Ok probabilities /\
          py_max probabilities = Ok c /\ cf = Some c
    | None => cf = None
    end.
Proof.
  unfold predict.
  destruct (model svc) as [m|]; [|discriminate].
  destruct (label_encoder svc) as [enc|]; [|discriminate].
  destruct (model_predict m (v1, v2, v3, v4)) as [y|e] eqn:E1; simpl; [|discriminate].
  destruct (inverse_transform enc y) as [l|e] eqn:E2; simpl; [|discriminate].
  destruct (model_predict_proba m) as [proba|] eqn:E0.
  - destruct (proba (v1, v2, v3, v4)) as [probabilities|e] eqn:E3; simpl; [|discriminate].
    destruct (py_max probabilities) as [c|e] eqn:E4; simpl; [|discriminate].
    intros H. injection H as <- <-.
    exists m, enc, y. rewrite E0. repeat split; try assumption.
    exists probabilities, c. auto.
  - intros H. injection H as <- <-.
    exists m, enc, y. rewrite E0. repeat split; assumption.
Qed.

(** An estimator without probability estimate gives no confidence:
    [None], not zero. *)
Lemma confidence_absent_without_proba (svc : MLService) (m : Model)
    (v1 v2 v3 v4 : Q) (lbl : string) (cf : option Q) :
  model svc = Some m -> model_predict_proba m = None ->
  predict svc v1 v2 v3 v4 = Ok (lbl, cf) -> cf = None.
Proof.
  intros Hm Hp H. apply predict_inv in H.
  destruct H as (m' & enc & y & Hm' & _ & _ & _ & H).
  rewrite Hm in Hm'. injection Hm' as <-. rewrite Hp in H. assumption.
Qed.

(** With a probability estimate, the confidence is the largest entry of
    the probability vector; it lies in [0,1] when the entries do. *)
Lemma confidence_is_largest_probability (svc : MLService) (m : Model)
    (proba : Features -> PyResult (list Q))
    (v1 v2 v3 v4 : Q) (lbl : string) (cf : option Q) :
  model svc = Some m -> model_predict_proba m = Some proba ->
  predict svc v1 v2 v3 v4 = Ok (lbl, cf) ->
  exists probabilities c,
    proba (v1, v2, v3, v4) = Ok probabilities /\ cf = Some c /\
    In c probabilities /\ Forall (fun q => (q <= c)%Q) probabilities /\
    (Forall (fun q => (0 <= q <= 1)%Q) probabilities -> (0 <= c <= 1)%Q).
Proof.
  intros Hm Hp H. apply predict_inv in H.
  destruct H as (m' & enc & y & Hm' & _ & _ & _ & H).
  rewrite Hm in Hm'. injection Hm' as <-. rewrite Hp in H.
  destruct H as (probabilities & c & H1 & H2 & H3).
  apply py_max_spec in H2. destruct H2 as [Hin Hall].
  exists probabilities, c. do 4 (split; [assumption|]).
  intros Hu. rewrite Forall_forall in Hu. apply (Hu c Hin).
Qed.

(** X16. When the predicted class has the largest probability (the
    estimator predicts its most probable class), the confidence is the
    probability of the predicted class. *)
Lemma confidence_of_arg_max (svc : MLService) (m : Model)
    (proba : Features -> PyResult (list Q)) (probabilities : list Q) (y : Z) (mass : Q)
    (v1 v2 v3 v4 : Q) (lbl : string) (cf : option Q) :
  model svc = Some m -> model_predict_proba m = Some proba ->
  model_predict m (v1, v2, v3, v4) = Ok y ->
  proba (v1, v2, v3, v4) = Ok probabilities ->
  mass_of_predicted probabilities y = Some mass ->
  Forall (fun q => (q <= mass)%Q) probabilities ->
  predict svc v1 v2 v3 v4 = Ok (lbl, cf) ->
  exists c, cf = Some c /\ (c == mass)%Q.
Proof.
  intros Hm Hp Hy Hpr Hmass Hmax H.
  destruct (confidence_is_largest_probability svc m proba v1 v2 v3 v4 lbl cf Hm Hp H)
    as (probs & c & H1 & H2 & Hin & Hall & _).
  rewrite Hpr in H1. injection H1 as <-.
  exists c. split; [assumption|].
  apply Qle_antisym.
  - rewrite Forall_forall in Hmax. apply Hmax; assumption.
  - rewrite Forall_forall in Hall. apply Hall.
    unfold mass_of_predicted in Hmass.
    destruct (y <? 0); [discriminate|].
    apply nth_error_In in Hmass. assumption.
Qed.

(** C7, at an estimator whose [predict] is not the arg-max of its
    [predict_proba]: the class predicted is 0 ("Safe"), to which the vector
    gives 3/10, and the confidence returned is 7/10, the mass of the class
    that was not predicted. *)
Example confidence_of_disagreeing_model :
  predict (loaded_service disagreeing_model) (72 # 10) (350 # 1) (28 # 10) (25 # 1) =
    Ok ("Safe"%string, Some (7 # 10)) /\
  model_predict disagreeing_model (72 # 10, 350 # 1, 28 # 10, 25 # 1) = Ok 0 /\
  mass_of_predicted [3 # 10; 7 # 10] 0 = Some (3 # 10).
Proof. repeat split; reflexivity. Qed.

Example confidence_of_forest_model :
  predict (loaded_service forest_model) (72 # 10) (350 # 1) (28 # 10) (25 # 1) =
    Ok ("Safe"%string, Some (91 # 100)) /\
  mass_of_predicted [91 # 100; 9 # 100] 0 = Some (91 # 100) /\
  predict (loaded_service bare_model) (72 # 10) (350 # 1) (28 # 10) (25 # 1) =
    Ok ("Unsafe"%string, None).
Proof. repeat split; reflexivity. Qed.

(** ** The manual trigger (claim C8) *)

Lemma filter_update_other (l : list DailyPrediction) (new : DailyPrediction)
    (p : DailyPrediction -> bool) :
  (forall x, In x l -> dp_id x = dp_id new -> p x = false) ->
  p new = false ->
  filter p (map (fun x => if dp_id x =? dp_id new then new else x) l) = filter p l.
Proof.
  intros Hx Hn. induction l as [|h t IH]; simpl; [reflexivity|].
  rewrite IH by (intros x Hin; apply Hx; right; assumption).
  destruct (dp_id h =? dp_id new) eqn:E.
  - apply Z.eqb_eq in E. rewrite Hn, (Hx h (or_introl eq_refl) E). reflexivity.
  - reflexivity.
Qed.

(** The upsert for a date leaves the rows of every other date alone. *)
Lemma create_daily_prediction_other_dates (db db' : Database) (c : Clock) (d0 d : date)
    (a : Aggregates) (label : string) (conf : option Q) (r : DailyPrediction) :
  store_ok db ->
  create_daily_prediction db c d0 a label conf = Ok (db', r) ->
  d <> d0 ->
  predictions_for db' d = predictions_for db d.
Proof.
  intros Hok Hc Hd.
  destruct (create_daily_prediction_upsert db c d0 a label conf Hok)
    as (db2 & r2 & Hc2 & _ & _ & Hdr & _ & _ & _ & Hm).
  rewrite Hc in Hc2. injection Hc2 as <- <-.
  assert (Hp : (dp_date r =? d) = false) by (apply Z.eqb_neq; congruence).
  unfold predictions_for.
  destruct (first_prediction_by_date db d0) as [ex|] eqn:E.
  - destruct Hm as (-> & Hid & _). unfold update_daily_prediction. simpl.
    apply filter_update_other; [|assumption].
    intros x Hx Hxi. apply lookup_some in E. destruct E as [Hex Hexd].
    assert (x = ex).
    { apply (nodup_key_inj _ dp_id (daily_predictions db)); try assumption;
        [apply Hok | congruence]. }
    subst x. apply Z.eqb_neq. congruence.
  - rewrite Hm, filter_app. simpl. rewrite Hp. apply app_nil_r.
Qed.

(** C8, as the code has it. The manual trigger takes no date. It makes
    the call the scheduler's job makes, [run_daily_prediction], which works
    on the day before the local date of the call: the store it leaves is the
    store that call leaves, and only rows of that date can differ from the
    store before. Its answer is the same message on every outcome of the
    run. *)
Theorem manual_trigger_runs_scheduler_job (ml : option MLService) (c cw : Clock)
    (db : Database) :
  exists db' o,
    job_func start_scheduler ml c cw db = Ok (db', o) /\
    run_daily_prediction ml c cw db = Ok (db', o) /\
    trigger_prediction_manually ml c cw db =
      (db', Http200 "Daily prediction triggered successfully") /\
    (store_ok db -> forall d, d <> date_today c - 1 ->
                    predictions_for db' d = predictions_for db d).
Proof.
  destruct (run_daily_prediction_returns ml c cw db) as (db' & o & Hrun).
  exists db', o. split; [exact Hrun|]. split; [exact Hrun|].
  split; [unfold trigger_prediction_manually; rewrite Hrun; reflexivity|].
  intros Hok d Hd.
  pose proof (run_daily_prediction_frame ml c cw db db' o Hrun) as Hf.
  destruct o as [r| |e]; try (rewrite Hf; reflexivity).
  destruct (run_completed_inv _ _ _ _ _ _ Hrun) as (a & p & _ & _ & Hc).
  apply (create_daily_prediction_other_dates db db' cw (date_today c - 1) d a
           (fst p) (snd p) r Hok Hc Hd).
Qed.

(** C8 as stated fails on both counts. The answer does not tell the
    outcome: a run that completes, one that skips and one that fails get
    the same response. And the caller cannot name the date: on 2024-01-04,
    with readings stored for 2024-01-01 and none predicted, the trigger
    works on 2024-01-03 and leaves 2024-01-01 without a row. *)
Lemma manual_trigger_counterexample :
  (exists db1 r1,
     run_daily_prediction (Some (loaded_service forest_model))
       (clock_utc (mkdatetime 2024 1 2 0 0 0)) (clock_utc (mkdatetime 2024 1 2 0 0 1))
       db_three_readings = Ok (db1, Completed r1)) /\
  run_daily_prediction (Some (loaded_service forest_model))
    (clock_utc (mkdatetime 2024 1 4 0 0 0)) (clock_utc (mkdatetime 2024 1 4 0 0 1))
    db_stale = Ok (db_stale, SkippedNoData) /\
  (exists e,
     run_daily_prediction None
       (clock_utc (mkdatetime 2024 1 2 0 0 0)) (clock_utc (mkdatetime 2024 1 2 0 0 1))
       db_three_readings = Ok (db_three_readings, Failed e)) /\
  snd (trigger_prediction_manually (Some (loaded_service forest_model))
         (clock_utc (mkdatetime 2024 1 2 0 0 0)) (clock_utc (mkdatetime 2024 1 2 0 0 1))
         db_three_readings) =
  snd (trigger_prediction_manually (Some (loaded_service forest_model))
         (clock_utc (mkdatetime 2024 1 4 0 0 0)) (clock_utc (mkdatetime 2024 1 4 0 0 1))
         db_stale) /\
  snd (trigger_prediction_manually (Some (loaded_service forest_model))
         (clock_utc (mkdatetime 2024 1 2 0 0 0)) (clock_utc (mkdatetime 2024 1 2 0 0 1))
         db_three_readings) =
  snd (trigger_prediction_manually None
         (clock_utc (mkdatetime 2024 1 2 0 0 0)) (clock_utc (mkdatetime 2024 1 2 0 0 1))
         db_three_readings) /\
  List.length (window_readings db_three_readings jan1) = 3%nat /\
  predictions_for
    (fst (trigger_prediction_manually (Some (loaded_service forest_model))
            (clock_utc (mkdatetime 2024 1 4 0 0 0)) (clock_utc (mkdatetime 2024 1 4 0 0 1))
            db_three_readings)) jan1 = [].
Proof.
  split; [eexists; eexists; vm_compute; reflexivity|].
  split; [vm_compute; reflexivity|].
  split; [eexists; vm_compute; reflexivity|].
  split; [vm_compute; reflexivity|].
  split; [vm_compute; reflexivity|].
  split; vm_compute; reflexivity.
Qed.

(** ** The time reference (claim C9) *)

(** On a host whose local zone is UTC the job's date is the UTC date. *)
Lemma utc_host_today (c : Clock) :
  utc_offset c = 0 -> date_today c = date_of (datetime_utcnow c).
Proof.
  intros H. unfold date_today, datetime_now, datetime_utcnow. rewrite H, Z.add_0_r.
  reflexivity.
Qed.

(** C9, at a host at UTC+05:30 when the cron trigger fires (local
    midnight, 18:30 UTC of the day before). [date.today()] is the local
    date, so the job works on 2024-01-01 while the UTC date is still
    2024-01-01 and UTC's yesterday is 2023-12-31. The window of 2024-01-01
    is compared with timestamps written by [datetime.utcnow()] and is still
    open: the job stores a prediction over two readings, and a reading
    ingested an hour and a half later falls into the same window. *)
Example local_yesterday_on_utc_timestamps :
  datetime_now clock_local_midnight = mkdatetime 2024 1 2 0 0 0 /\
  date_today clock_local_midnight - 1 = mkdate 2024 1 1 /\
  date_of (datetime_utcnow clock_local_midnight) - 1 = mkdate 2023 12 31 /\
  datetime_utcnow clock_local_midnight < end_of_day (date_today clock_local_midnight - 1) /\
  (exists db1 r1,
     run_daily_prediction (Some (loaded_service forest_model))
       clock_local_midnight clock_local_midnight db_morning = Ok (db1, Completed r1) /\
     dp_date r1 = mkdate 2024 1 1 /\ reading_count r1 = 2 /\
     List.length
       (window_readings
          (fst (create_sensor_reading PayloadWithTime p_ph p_tds p_turbidity p_temperature
                  db1 (clock_plus_0530 (mkdatetime 2024 1 1 20 0 0)) payload_backdated))
          (mkdate 2024 1 1)) = 3%nat).
Proof.
  split; [vm_compute; reflexivity|].
  split; [vm_compute; reflexivity|].
  split; [vm_compute; reflexivity|].
  split; [vm_compute; reflexivity|].
  eexists; eexists. split; [vm_compute; reflexivity|].
  split; [vm_compute; reflexivity|].
  split; vm_compute; reflexivity.
Qed.

(** ** Overlapping runs (claims C2 and C6) *)

Lemma set_nth_Forall {A : Type} (P : A -> Prop) (l : list A) (i : nat) (x : A) :
  Forall P l -> P x -> Forall P (set_nth l i x).
Proof.
  intros Hl Hx. revert i. induction Hl as [|h t Hh Ht IH]; intros i; simpl.
  - constructor.
  - destruct i; constructor; auto.
Qed.

(** A write after a sound lookup keeps what the other threads hold good. *)
Lemma thread_ok_after_write (db db' : Database) (c : Clock) (d : date) (a : Aggregates)
    (label : string) (conf : option Q) (existing : option DailyPrediction)
    (r : DailyPrediction) :
  store_ok db ->
  lookup_sound db d existing ->
  write_daily_prediction true db c d a label conf existing = Ok (db', r) ->
  forall pc, thread_ok db pc -> thread_ok db' pc.
Proof.
  intros Hok Hl Hw pc Hpc.
  destruct (write_after_sound_lookup db c d a label conf existing Hok Hl)
    as (db2 & r2 & Hw2 & Hok2 & Hin2 & Hd2 & _ & _ & _ & Hm).
  rewrite Hw in Hw2. injection Hw2 as <- <-.
  destruct pc as [| | |d2 a2 l2 c2 [ex2|]|]; simpl in *; try exact I.
  destruct Hpc as (Hd & row2 & Hrin & Hrid & Hrd). split; [assumption|].
  destruct existing as [ex|].
  - destruct Hm as (Hupd & Hid & _ & _).
    destruct Hl as (Hexd & row & Hrowin & Hrowid & Hrowd).
    destruct (Z.eq_dec (dp_id row2) (dp_id r)) as [E | E].
    + exists r. split; [assumption|]. split; [congruence|].
      assert (row2 = row).
      { apply (nodup_key_inj _ dp_id (daily_predictions db)); try assumption;
          [apply Hok | congruence]. }
      subst row2. congruence.
    + exists row2. split; [|auto].
      rewrite Hupd. unfold update_daily_prediction. simpl.
      apply in_map_iff. exists row2. split; [|assumption].
      apply Z.eqb_neq in E. rewrite E. reflexivity.
  - exists row2. split; [|auto]. rewrite Hm. apply in_or_app. left. assumption.
Qed.

(** The write step of a run, whatever the other runs did since its lookup.
    Either it commits and leaves the one row for its date, carrying what the
    run computed; or the run had found no row, another run has inserted one
    since, and the constraint refuses the insert. *)
Lemma write_step_cases (db : Database) (c : Clock) (d : date) (a : Aggregates)
    (label : string) (conf : option Q) (existing : option DailyPrediction) :
  store_ok db ->
  thread_ok db (AtWrite d a label conf existing) ->
  (exists db' r,
     write_daily_prediction true db c d a label conf existing = Ok (db', r) /\
     store_ok db' /\ predictions_for db' d = [r] /\ holds r a label conf /\
     sensor_readings db' = sensor_readings db /\
     (forall pc, thread_ok db pc -> thread_ok db' pc)) \/
  (existing = None /\
   (exists e, write_daily_prediction true db c d a label conf existing =
              Raise (IntegrityError e)) /\
   exists r0, predictions_for db d = [r0]).
Proof.
  intros Hok Hth.
  assert (Hsound : lookup_sound db d existing ->
    exists db' r,
      write_daily_prediction true db c d a label conf existing = Ok (db', r) /\
      store_ok db' /\ predictions_for db' d = [r] /\ holds r a label conf /\
      sensor_readings db' = sensor_readings db /\
      (forall pc, thread_ok db pc -> thread_ok db' pc)).
  { intros Hl.
    destruct (write_after_sound_lookup db c d a label conf existing Hok Hl)
      as (db' & r & Hw & Hok' & Hin & Hd & Hh & _ & Hs & _).
    exists db', r. split; [assumption|]. split; [assumption|].
    split; [rewrite <- Hd; apply predictions_for_unique; [apply Hok' | assumption]|].
    split; [assumption|]. split; [assumption|].
    apply (thread_ok_after_write db db' c d a label conf existing r Hok Hl Hw). }
  destruct existing as [ex|].
  - left. apply Hsound. exact Hth.
  - destruct (existsb (fun x => dp_date x =? d) (daily_predictions db)) eqn:E.
    + right. split; [reflexivity|].
      apply (existsb_key _ dp_date) in E.
      split.
      * apply (insert_rejects_duplicate db
                 (new_prediction d a label conf (datetime_utcnow c))). exact E.
      * apply in_map_iff in E. destruct E as (r0 & Hr0 & Hin). exists r0.
        rewrite <- Hr0. apply predictions_for_unique; [apply Hok | assumption].
    + left. apply Hsound. simpl. intros Hin.
      apply (existsb_key _ dp_date) in Hin. congruence.
Qed.

(** Every step of a run keeps the invariant. *)
Lemma job_step_inv (ml : option MLService) (c : Clock) (db db' : Database) (pc pc' : JobPC) :
  store_ok db -> thread_ok db pc ->
  job_step true ml c db pc = Some (db', pc') ->
  store_ok db' /\ thread_ok db' pc' /\ (forall pc2, thread_ok db pc2 -> thread_ok db' pc2).
Proof.
  intros Hok Hth Hstep.
  destruct pc as [|d a|d a l cf|d a l cf existing|o]; simpl in Hstep.
  - injection Hstep as <- <-. split; [assumption|]. split; [|auto].
    destruct (compute_daily_aggregates db (date_today c - 1)) as [[x|]|e]; exact I.
  - injection Hstep as <- <-. split; [assumption|]. split; [|auto].
    destruct (call_ml_service_predict ml a) as [p|e]; exact I.
  - injection Hstep as <- <-. split; [assumption|]. split; [|auto].
    pose proof (lookup_is_sound db d) as H. simpl.
    destruct (first_prediction_by_date db d); [exact H | exact I].
  - destruct (write_step_cases db c d a l cf existing Hok Hth)
      as [(db2 & r & Hw & Hok2 & _ & _ & _ & Hkeep) | (_ & (e & Hw) & _)];
      rewrite Hw in Hstep; injection Hstep as <- <-; simpl.
    + split; [assumption|]. split; [exact I | assumption].
    + split; [assumption|]. split; [exact I | auto].
  - discriminate.
Qed.

Lemma thread_ok_readings (db db' : Database) (pc : JobPC) :
  daily_predictions db' = daily_predictions db -> thread_ok db pc -> thread_ok db' pc.
Proof.
  intros H. destruct pc as [| | |d a l cf [ex|]|]; simpl; try tauto.
  rewrite H. tauto.
Qed.

Lemma sys_step_inv (ml : option MLService) (s s' : Sys) :
  sys_inv s -> sys_step true ml s s' -> sys_inv s'.
Proof.
  intros [Hok Hth] Hstep. destruct Hstep as [s | s i c pc db' pc' Hnth Hjob | s c v1 v2 v3 v4].
  - split; simpl; [assumption|].
    apply Forall_app. split; [assumption | constructor; [exact I | constructor]].
  - assert (Hpc : thread_ok (store s) pc).
    { rewrite Forall_forall in Hth. apply Hth. eapply nth_error_In; eassumption. }
    destruct (job_step_inv ml c (store s) db' pc pc' Hok Hpc Hjob) as (Hok' & Hpc' & Hkeep).
    split; simpl; [assumption|].
    apply set_nth_Forall; [|assumption].
    eapply Forall_impl; [|eassumption]. exact Hkeep.
  - split; simpl.
    + exact Hok.
    + eapply Forall_impl; [|eassumption].
      intros pc. apply thread_ok_readings. reflexivity.
Qed.

Lemma reachable_inv (ml : option MLService) (s : Sys) :
  reachable true ml s -> sys_inv s.
Proof.
  intros H. induction H as [|s1 s2 Hstep _ IH].
  - split; [apply store_ok_empty | constructor].
  - eapply sys_step_inv; eassumption.
Qed.

(** A schedule that runs is a path of the step relation. *)
Lemma apply_event_step (unique : bool) (ml : option MLService) (s s' : Sys) (ev : Event) :
  apply_event unique ml s ev = Some s' -> sys_step unique ml s s'.
Proof.
  destruct ev as [|i c|c v1 v2 v3 v4]; simpl.
  - intros H. injection H as <-. constructor.
  - destruct (nth_error (threads s) i) as [pc|] eqn:E1; [|discriminate].
    destruct (job_step unique ml c (store s) pc) as [[db' pc']|] eqn:E2; [|discriminate].
    intros H. injection H as <-. simpl. eapply step_job; eassumption.
  - intros H. injection H as <-. constructor.
Qed.

Lemma run_events_reachable (unique : bool) (ml : option MLService) (evs : list Event) :
  forall s s',
    reachable unique ml s -> run_events unique ml s evs = Some s' -> reachable unique ml s'.
Proof.
  induction evs as [|ev rest IH]; simpl; intros s s' Hs H.
  - injection H as <-. assumption.
  - destruct (apply_event unique ml s ev) as [s1|] eqn:E; [|discriminate].
    apply (IH s1 s'); [|assumption].
    eapply Relation_Operators.rtn1_trans; [eapply apply_event_step; eassumption | exact Hs].
Qed.

(** A run that nothing interleaves with is [run_daily_prediction]. *)
Lemma run_alone_is_run_daily_prediction (ml : option MLService) (c cw : Clock)
    (db : Database) :
  exists db' o,
    run_daily_prediction ml c cw db = Ok (db', o) /\
    run_alone date_column_unique ml c cw db = (db', Finished o).
Proof.
  unfold run_alone, step_or_stay, run_daily_prediction, job_try_block. simpl.
  destruct (compute_daily_aggregates db (date_today c - 1)) as [[a|]|e]; simpl;
    try (eexists; eexists; split; reflexivity).
  destruct (call_ml_service_predict ml a) as [p|e]; simpl;
    try (eexists; eexists; split; reflexivity).
  unfold create_daily_prediction.
  destruct (write_daily_prediction date_column_unique db cw (date_today c - 1) a
              (fst p) (snd p) (first_prediction_by_date db (date_today c - 1)))
    as [[db' r]|e]; simpl; eexists; eexists; split; reflexivity.
Qed.

Lemma sys_after_reachable (unique : bool) (evs : list Event) :
  reachable unique (Some (loaded_service forest_model)) (sys_after unique evs).
Proof.
  unfold sys_after.
  destruct (run_events unique (Some (loaded_service forest_model)) init_sys evs) as [s|] eqn:E.
  - eapply run_events_reachable; [|eassumption]. constructor.
  - constructor.
Qed.

(** C2. In every state the system reaches, by any interleaving of
    triggers, of the steps of any number of runs and of ingestions, no two
    prediction rows have the same date: the dates of the table are without
    duplicate and every date has at most one row. The store itself enforces
    it: an INSERT of a date that is in the table is refused with an
    integrity error, whatever lookup came before. *)
Theorem no_two_predictions_share_a_date (ml : option MLService) (s : Sys) :
  reachable date_column_unique ml s ->
  unique_dates (store s) /\
  (forall d, (List.length (predictions_for (store s) d) <= 1)%nat) /\
  (forall r, In (dp_date r) (map dp_date (daily_predictions (store s))) ->
             exists e, insert_daily_prediction date_column_unique (store s) r =
                       Raise (IntegrityError e)).
Proof.
  intros H. apply reachable_inv in H. destruct H as [[_ Hd] _].
  split; [assumption|]. split.
  - intros d. apply unique_dates_at_most_one; assumption.
  - intros r. apply insert_rejects_duplicate.
Qed.

Lemma no_two_predictions_share_a_date_witness :
  unique_dates (store (sys_after date_column_unique race_schedule_full)) /\
  (forall d, (List.length (predictions_for
                (store (sys_after date_column_unique race_schedule_full)) d) <= 1)%nat) /\
  (forall r, In (dp_date r)
               (map dp_date (daily_predictions
                  (store (sys_after date_column_unique race_schedule_full)))) ->
             exists e, insert_daily_prediction date_column_unique
                         (store (sys_after date_column_unique race_schedule_full)) r =
                       Raise (IntegrityError e)).
Proof.
  apply (no_two_predictions_share_a_date (Some (loaded_service forest_model))
           (sys_after date_column_unique race_schedule_full)).
  apply sys_after_reachable.
Defined.

(** The race, run to its end. With the constraint, run 0 inserts the row
    and run 1, whose lookup had found none, is refused and ends failed: one
    row. Without it the same schedule leaves two rows for the date, so the
    lookup before the write does not give uniqueness by itself. *)
Example race_with_and_without_constraint :
  List.length (predictions_for (store (sys_after true race_schedule_full)) jan1) = 1%nat /\
  nth_error (threads (sys_after true race_schedule_full)) 1 =
    Some (Finished (Failed (IntegrityError
                              "UNIQUE constraint failed: daily_predictions.date"))) /\
  reachable false (Some (loaded_service forest_model)) (sys_after false race_schedule_full) /\
  List.length (predictions_for (store (sys_after false race_schedule_full)) jan1) = 2%nat.
Proof.
  split; [vm_compute; reflexivity|].
  split; [vm_compute; reflexivity|].
  split; [apply sys_after_reachable|].
  vm_compute; reflexivity.
Qed.

(** C6 as stated fails: the system reaches a state with two runs in
    flight for 2024-01-01. Neither trigger waited and neither was
    rejected. *)
Lemma two_runs_in_flight :
  reachable date_column_unique (Some (loaded_service forest_model))
    (sys_after date_column_unique overlap_schedule) /\
  runs_in_flight jan1 (sys_after date_column_unique overlap_schedule) = 2%nat /\
  map in_flight (threads (sys_after date_column_unique overlap_schedule)) =
    [Some jan1; Some jan1].
Proof.
  split; [apply sys_after_reachable|].
  split; vm_compute; reflexivity.
Qed.

(** C6, as the code has it. Runs for one date may overlap; what holds of
    them is about their writes. In any reachable state, the write step of a
    run for date [d] either commits, and then the table has exactly one row
    for [d], the row the run returns; or the run had found no row at its
    lookup and another run inserted one since, and then the store refuses
    the insert with an integrity error, the run ends failed, and the store,
    with its one row for [d], is unchanged. *)
Theorem overlapping_write_leaves_one_row (ml : option MLService) (s : Sys) (i : nat)
    (c : Clock) (d : date) (a : Aggregates) (label : string) (conf : option Q)
    (existing : option DailyPrediction) (db' : Database) (pc' : JobPC) :
  reachable date_column_unique ml s ->
  nth_error (threads s) i = Some (AtWrite d a label conf existing) ->
  job_step date_column_unique ml c (store s) (AtWrite d a label conf existing) =
    Some (db', pc') ->
  (exists r, pc' = Finished (Completed r) /\ predictions_for db' d = [r]) \/
  (exists e r0, pc' = Finished (Failed (IntegrityError e)) /\ existing = None /\
                db' = store s /\ predictions_for db' d = [r0]).
Proof.
  intros Hreach Hnth Hstep.
  apply reachable_inv in Hreach. destruct Hreach as [Hok Hth].
  assert (Hpc : thread_ok (store s) (AtWrite d a label conf existing)).
  { rewrite Forall_forall in Hth. apply Hth. eapply nth_error_In; eassumption. }
  unfold date_column_unique in Hstep. simpl in Hstep.
  destruct (write_step_cases (store s) c d a label conf existing Hok Hpc)
    as [(db2 & r & Hw & _ & Hone & Hh & _ & _) | (Hnone & (e & Hw) & (r0 & Hone))];
    rewrite Hw in Hstep; injection Hstep as <- <-; simpl.
  - left. exists r. auto.
  - right. exists e, r0. auto.
Qed.

Lemma overlapping_write_leaves_one_row_witness :
  exists d a label conf existing db' pc',
    nth_error (threads (sys_after date_column_unique race_schedule)) 1 =
      Some (AtWrite d a label conf existing) /\
    job_step date_column_unique (Some (loaded_service forest_model)) ev_clock
      (store (sys_after date_column_unique race_schedule))
      (AtWrite d a label conf existing) = Some (db', pc') /\
    ((exists r, pc' = Finished (Completed r) /\ predictions_for db' d = [r]) \/
     (exists e r0, pc' = Finished (Failed (IntegrityError e)) /\ existing = None /\
                   db' = store (sys_after date_column_unique race_schedule) /\
                   predictions_for db' d = [r0])).
Proof.
  do 7 eexists.
  split; [vm_compute; reflexivity|].
  split; [vm_compute; reflexivity|].
  eapply (overlapping_write_leaves_one_row (Some (loaded_service forest_model))
            (sys_after date_column_unique race_schedule) 1 ev_clock).
  - apply sys_after_reachable.
  - vm_compute. reflexivity.
  - vm_compute. reflexivity.
Defined.

(* ================================================================== *)
(** * Further properties of the code *)

(** ** The queries of app/crud.py *)

Lemma first_by_desc_none {A : Type} (key : A -> Z) (l : list A) :
  first_by_desc key l = None <-> l = [].
Proof.
  destruct l as [|x t]; simpl; [tauto|].
  split; [|discriminate].
  destruct (first_by_desc key t) as [y|]; [destruct (key x <? key y)|]; discriminate.
Qed.

Lemma first_by_desc_max {A : Type} (key : A -> Z) (l : list A) (y : A) :
  first_by_desc key l = Some y ->
  In y l /\ forall x, In x l -> key x <= key y.
Proof.
  revert y. induction l as [|h t IH]; simpl; intros y H; [discriminate|].
  destruct (first_by_desc key t) as [z|] eqn:E.
  - destruct (IH z eq_refl) as [Hin Hmax].
    destruct (key h <? key z) eqn:C; injection H as <-.
    + apply Z.ltb_lt in C. split; [right; assumption|].
      intros x [-> | Hx]; [lia | apply Hmax; assumption].
    + apply Z.ltb_ge in C. split; [left; reflexivity|].
      intros x [-> | Hx]; [lia | specialize (Hmax x Hx); lia].
  - injection H as <-. apply first_by_desc_none in E. subst t.
    split; [left; reflexivity|]. intros x [-> | []]. lia.
Qed.

(** X1. The aggregation never raises: the conversion of a NULL average is
    not reached, because a count of zero returns first. It returns [None]
    exactly when [get_readings_for_date] returns no reading for the date,
    and otherwise its count is the number of readings that query returns,
    at least one. *)
Theorem aggregator_agrees_with_readings_query (db : Database) (d : date) :
  (exists o, compute_daily_aggregates db d = Ok o) /\
  (compute_daily_aggregates db d = Ok None <-> get_readings_for_date db d = []) /\
  (forall a, compute_daily_aggregates db d = Ok (Some a) ->
             agg_reading_count a = Z.of_nat (List.length (get_readings_for_date db d)) /\
             1 <= agg_reading_count a).
Proof.
  rewrite get_readings_for_date_window.
  split; [apply compute_daily_aggregates_total|].
  destruct (window_readings db d) as [|r W] eqn:E.
  - pose proof (compute_daily_aggregates_empty db d E) as H. rewrite H.
    split; [tauto | discriminate].
  - destruct (compute_daily_aggregates_nonempty db d) as (a & Ha & _ & _ & _ & _ & Hn);
      [rewrite E; discriminate|].
    rewrite Ha, E in *. split; [split; discriminate|].
    intros a' H. injection H as <-. split; [assumption|].
    rewrite Hn. simpl. lia.
Qed.

(** X2. The day windows partition the readings by the date of their
    timestamp: [get_readings_for_date] returns a stored reading for the date
    [d] exactly when [d] is the date of its timestamp, so every reading is
    counted for one date and no reading falls between two days. *)
Theorem readings_partitioned_by_date (db : Database) (d : date) (r : SensorReading) :
  In r (get_readings_for_date db d) <->
  In r (sensor_readings db) /\ date_of (timestamp r) = d.
Proof.
  rewrite get_readings_for_date_window, window_readings_In, within_day_date_of.
  reflexivity.
Qed.

Lemma window_after_ingest (db : Database) (c : Clock) (v1 v2 v3 v4 : Q) (d : date) :
  window_readings (fst (insert_sensor_reading db c v1 v2 v3 v4)) d =
  window_readings db d ++
  (if date_of (datetime_utcnow c) =? d
   then [snd (insert_sensor_reading db c v1 v2 v3 v4)] else []).
Proof.
  unfold window_readings. simpl. rewrite filter_app. f_equal. simpl.
  set (row := {| sr_id := next_id (map sr_id (sensor_readings db)); ph := v1; tds := v2;
                 turbidity := v3; temperature := v4; timestamp := datetime_utcnow c |}).
  destruct (in_window (start_of_day d) (end_of_day d) row) eqn:E.
  - apply in_window_iff, within_day_date_of in E. simpl in E.
    rewrite E, Z.eqb_refl. reflexivity.
  - destruct (date_of (datetime_utcnow c) =? d) eqn:E2; [|reflexivity].
    apply Z.eqb_eq in E2.
    assert (H : in_window (start_of_day d) (end_of_day d) row = true)
      by (apply in_window_iff, within_day_date_of; exact E2).
    congruence.
Qed.

(** X3. An ingested reading joins the window of the UTC date of the
    store's clock and of no other date: the readings returned for a date
    after the ingestion are those returned before it and, for that date
    alone, the new row; their number grows by one for that date and by none
    for any other; and the aggregate of every other date is the same. *)
Theorem ingested_reading_joins_its_utc_day (In_ : Type)
    (in_ph in_tds in_turbidity in_temperature : In_ -> Q)
    (db : Database) (c : Clock) (reading : In_) (d : date) :
  (forall r,
     In r (get_readings_for_date
             (fst (create_sensor_reading In_ in_ph in_tds in_turbidity in_temperature
                     db c reading)) d) <->
     In r (get_readings_for_date db d) \/
     (r = snd (create_sensor_reading In_ in_ph in_tds in_turbidity in_temperature
                 db c reading) /\
      date_of (datetime_utcnow c) = d)) /\
  List.length (get_readings_for_date
                 (fst (create_sensor_reading In_ in_ph in_tds in_turbidity in_temperature
                         db c reading)) d) =
    (List.length (get_readings_for_date db d) +
     (if (date_of (datetime_utcnow c) =? d)%Z then 1 else 0))%nat /\
  (d <> date_of (datetime_utcnow c) ->
   compute_daily_aggregates
     (fst (create_sensor_reading In_ in_ph in_tds in_turbidity in_temperature db c reading)) d =
   compute_daily_aggregates db d).
Proof.
  unfold create_sensor_reading. rewrite !get_readings_for_date_window.
  rewrite window_after_ingest.
  split; [|split].
  - intros r. rewrite in_app_iff.
    destruct (date_of (datetime_utcnow c) =? d) eqn:E.
    + apply Z.eqb_eq in E. simpl. split.
      * intros [H | [H | []]]; [left; assumption | right; auto].
      * intros [H | [H _]]; [left; assumption | right; left; auto].
    + apply Z.eqb_neq in E. simpl. split.
      * intros [H | []]. left; assumption.
      * intros [H | [_ H]]; [left; assumption | contradiction].
  - rewrite length_app. destruct (date_of (datetime_utcnow c) =? d); reflexivity.
  - intros Hd. apply compute_daily_aggregates_window.
    rewrite window_after_ingest.
    destruct (date_of (datetime_utcnow c) =? d) eqn:E;
      [apply Z.eqb_eq in E; congruence | apply app_nil_r].
Qed.

(** X4. While the stored ids are positive and below the largest id the
    64-bit key can hold, ingestion gives the new reading an id larger than
    every stored id, keeps the stored rows of the table as they are and
    adds the new one; a table whose ids are distinct stays so. *)
Theorem ingestion_assigns_fresh_id (In_ : Type)
    (in_ph in_tds in_turbidity in_temperature : In_ -> Q)
    (db : Database) (c : Clock) (reading : In_) :
  NoDup (map sr_id (sensor_readings db)) ->
  (forall r, In r (sensor_readings db) -> 1 <= sr_id r < max_rowid) ->
  (forall r, In r (sensor_readings db) ->
     sr_id r < sr_id (snd (create_sensor_reading In_ in_ph in_tds in_turbidity
                             in_temperature db c reading))) /\
  1 <= sr_id (snd (create_sensor_reading In_ in_ph in_tds in_turbidity
                     in_temperature db c reading)) <= max_rowid /\
  sensor_readings (fst (create_sensor_reading In_ in_ph in_tds in_turbidity
                          in_temperature db c reading)) =
    sensor_readings db ++
    [snd (create_sensor_reading In_ in_ph in_tds in_turbidity in_temperature db c reading)] /\
  NoDup (map sr_id (sensor_readings
                      (fst (create_sensor_reading In_ in_ph in_tds in_turbidity
                              in_temperature db c reading)))).
Proof.
  intros Hnd Hbound. unfold create_sensor_reading, insert_sensor_reading. simpl.
  split; [intros r Hr; apply next_id_fresh; apply in_map; assumption|].
  split.
  { unfold next_id.
    assert (H : forall l : list SensorReading,
               (forall r, In r l -> 1 <= sr_id r < max_rowid) ->
               0 <= fold_right Z.max 0 (map sr_id l) < max_rowid).
    { induction l as [|h t IH]; intros Hb; cbn [map fold_right].
      - unfold max_rowid. lia.
      - specialize (IH (fun r Hr => Hb r (or_intror Hr))).
        specialize (Hb h (or_introl eq_refl)). lia. }
    specialize (H (sensor_readings db) Hbound). lia. }
  split; [reflexivity|].
  rewrite map_app. simpl. apply nodup_snoc; [assumption | apply next_id_not_in].
Qed.

Lemma ingestion_assigns_fresh_id_witness :
  (forall r, In r (sensor_readings db_three_readings) ->
     sr_id r < sr_id (snd (create_sensor_reading PayloadWithTime p_ph p_tds p_turbidity
                             p_temperature db_three_readings
                             (clock_utc (mkdatetime 2024 1 2 8 0 0)) payload_backdated))) /\
  1 <= sr_id (snd (create_sensor_reading PayloadWithTime p_ph p_tds p_turbidity
                     p_temperature db_three_readings
                     (clock_utc (mkdatetime 2024 1 2 8 0 0)) payload_backdated))
    <= max_rowid /\
  sensor_readings (fst (create_sensor_reading PayloadWithTime p_ph p_tds p_turbidity
                          p_temperature db_three_readings
                          (clock_utc (mkdatetime 2024 1 2 8 0 0)) payload_backdated)) =
    sensor_readings db_three_readings ++
    [snd (create_sensor_reading PayloadWithTime p_ph p_tds p_turbidity p_temperature
            db_three_readings (clock_utc (mkdatetime 2024 1 2 8 0 0)) payload_backdated)] /\
  NoDup (map sr_id (sensor_readings
                      (fst (create_sensor_reading PayloadWithTime p_ph p_tds p_turbidity
                              p_temperature db_three_readings
                              (clock_utc (mkdatetime 2024 1 2 8 0 0)) payload_backdated)))).
Proof.
  apply (ingestion_assigns_fresh_id PayloadWithTime p_ph p_tds p_turbidity p_temperature
           db_three_readings (clock_utc (mkdatetime 2024 1 2 8 0 0)) payload_backdated).
  - simpl. repeat (constructor; [simpl; intuition discriminate|]). constructor.
  - intros r Hr. simpl in Hr.
    repeat (destruct Hr as [<- | Hr]; [vm_compute; split; [discriminate | reflexivity]|]).
    destruct Hr.
Defined.

Lemma first_by_desc_some {A : Type} (key : A -> Z) (l : list A) :
  l <> [] -> exists y, first_by_desc key l = Some y.
Proof.
  intros H. destruct (first_by_desc key l) as [y|] eqn:E; [eauto|].
  apply first_by_desc_none in E. contradiction.
Qed.

(** X5. A reading submitted when the store's clock is later than every
    stored timestamp is the latest reading at once: the POST answers 201
    with the stored row (the payload's four values, the store's clock), and
    the latest-reading query and its endpoint, run on the store the POST
    leaves, return that row. *)
Theorem submitted_reading_is_latest (In_ : Type)
    (in_ph in_tds in_turbidity in_temperature : In_ -> Q)
    (db : Database) (c : Clock) (reading : In_) :
  (forall x, In x (sensor_readings db) -> timestamp x < datetime_utcnow c) ->
  exists row,
    snd (submit_sensor_reading In_ in_ph in_tds in_turbidity in_temperature db c reading) =
      Replied 201 row /\
    ph row = in_ph reading /\ tds row = in_tds reading /\
    turbidity row = in_turbidity reading /\ temperature row = in_temperature reading /\
    timestamp row = datetime_utcnow c /\
    get_latest_sensor_reading
      (fst (submit_sensor_reading In_ in_ph in_tds in_turbidity in_temperature db c reading)) =
      Some row /\
    get_latest_reading
      (fst (submit_sensor_reading In_ in_ph in_tds in_turbidity in_temperature db c reading)) =
      Replied 200 row.
Proof.
  intros Hlater.
  unfold submit_sensor_reading, create_sensor_reading, insert_sensor_reading. simpl.
  set (row := {| sr_id := next_id (map sr_id (sensor_readings db));
                 ph := in_ph reading; tds := in_tds reading;
                 turbidity := in_turbidity reading; temperature := in_temperature reading;
                 timestamp := datetime_utcnow c |}).
  exists row. do 6 (split; [reflexivity|]).
  assert (Hlatest : first_by_desc timestamp (sensor_readings db ++ [row]) = Some row).
  { destruct (first_by_desc_some timestamp (sensor_readings db ++ [row])) as [y Hy].
    - destruct (sensor_readings db); discriminate.
    - rewrite Hy. f_equal.
      apply first_by_desc_max in Hy. destruct Hy as [Hin Hmax].
      apply in_app_or in Hin. destruct Hin as [Hold | [Hnew | []]]; [|auto].
      specialize (Hlater y Hold).
      assert (Hrow : timestamp row <= timestamp y)
        by (apply Hmax; apply in_or_app; right; left; reflexivity).
      simpl in Hrow. lia. }
  unfold get_latest_reading, get_latest_sensor_reading. simpl.
  rewrite Hlatest. split; reflexivity.
Qed.

Lemma submitted_reading_is_latest_witness :
  exists row,
    snd (submit_sensor_reading PayloadWithTime p_ph p_tds p_turbidity p_temperature
           db_three_readings (clock_utc (mkdatetime 2024 1 2 8 0 0)) payload_backdated) =
      Replied 201 row /\
    ph row = p_ph payload_backdated /\ tds row = p_tds payload_backdated /\
    turbidity row = p_turbidity payload_backdated /\
    temperature row = p_temperature payload_backdated /\
    timestamp row = datetime_utcnow (clock_utc (mkdatetime 2024 1 2 8 0 0)) /\
    get_latest_sensor_reading
      (fst (submit_sensor_reading PayloadWithTime p_ph p_tds p_turbidity p_temperature
              db_three_readings (clock_utc (mkdatetime 2024 1 2 8 0 0)) payload_backdated)) =
      Some row /\
    get_latest_reading
      (fst (submit_sensor_reading PayloadWithTime p_ph p_tds p_turbidity p_temperature
              db_three_readings (clock_utc (mkdatetime 2024 1 2 8 0 0)) payload_backdated)) =
      Replied 200 row.
Proof.
  apply (submitted_reading_is_latest PayloadWithTime p_ph p_tds p_turbidity p_temperature
           db_three_readings (clock_utc (mkdatetime 2024 1 2 8 0 0)) payload_backdated).
  intros x Hx. simpl in Hx.
  repeat (destruct Hx as [<- | Hx]; [vm_compute; reflexivity|]). destruct Hx.
Defined.

(** ** The upsert of app/crud.py *)

Lemma find_is_head_of_filter {A : Type} (p : A -> bool) (l : list A) :
  find p l = hd_error (filter p l).
Proof.
  induction l as [|h t IH]; simpl; [reflexivity|].
  destruct (p h); [reflexivity | exact IH].
Qed.

(** X6. On a store that keeps its primary key and its date constraint,
    [create_daily_prediction] does not raise; a lookup of the date on the
    store it leaves finds the row it returned, which carries the aggregate,
    the label and the confidence it was given and the store's clock as
    stamp; the store still keeps its constraints; and for every other date
    the lookup and the rows are as before. *)
Theorem upsert_then_lookup (db : Database) (c : Clock) (d : date) (a : Aggregates)
    (label : string) (conf : option Q) :
  store_ok db ->
  exists db' r,
    create_daily_prediction db c d a label conf = Ok (db', r) /\
    first_prediction_by_date db' d = Some r /\
    dp_date r = d /\ holds r a label conf /\ created_at r = datetime_utcnow c /\
    store_ok db' /\
    (forall d', d' <> d ->
       first_prediction_by_date db' d' = first_prediction_by_date db d' /\
       predictions_for db' d' = predictions_for db d').
Proof.
  intros Hok.
  destruct (create_daily_prediction_upsert db c d a label conf Hok)
    as (db' & r & Hc & Hok' & Hone & Hd & Hh & Hst & _ & _).
  exists db', r. split; [assumption|].
  split.
  { unfold first_prediction_by_date. rewrite find_is_head_of_filter.
    fold (predictions_for db' d). rewrite Hone. reflexivity. }
  do 4 (split; [assumption|]).
  intros d' Hd'.
  pose proof (create_daily_prediction_other_dates db db' c d d' a label conf r Hok Hc Hd') as H.
  split; [|assumption].
  unfold first_prediction_by_date. rewrite !find_is_head_of_filter.
  fold (predictions_for db' d') (predictions_for db d'). rewrite H. reflexivity.
Qed.

Lemma upsert_then_lookup_witness :
  exists db' r,
    create_daily_prediction db_stale (clock_utc (mkdatetime 2024 1 4 0 0 2))
      (mkdate 2024 1 3)
      {| agg_avg_ph := 72 # 10; agg_avg_tds := 350 # 1; agg_avg_turbidity := 28 # 10;
         agg_avg_temperature := 25 # 1; agg_reading_count := 3 |}
      "Unsafe" None = Ok (db', r) /\
    first_prediction_by_date db' (mkdate 2024 1 3) = Some r /\
    dp_date r = mkdate 2024 1 3 /\
    holds r {| agg_avg_ph := 72 # 10; agg_avg_tds := 350 # 1; agg_avg_turbidity := 28 # 10;
               agg_avg_temperature := 25 # 1; agg_reading_count := 3 |} "Unsafe" None /\
    created_at r = datetime_utcnow (clock_utc (mkdatetime 2024 1 4 0 0 2)) /\
    store_ok db' /\
    (forall d', d' <> mkdate 2024 1 3 ->
       first_prediction_by_date db' d' = first_prediction_by_date db_stale d' /\
       predictions_for db' d' = predictions_for db_stale d').
Proof.
  apply (upsert_then_lookup db_stale (clock_utc (mkdatetime 2024 1 4 0 0 2))
           (mkdate 2024 1 3)).
  split; (constructor; [simpl; tauto | constructor]).
Defined.

(** X7. When the date written is not older than any date in the store,
    the row [create_daily_prediction] returns is the latest prediction: the
    latest-prediction query and its endpoint, run on the store the upsert
    leaves, return that row. *)
Theorem upsert_of_newest_date_is_latest (db : Database) (c : Clock) (d : date)
    (a : Aggregates) (label : string) (conf : option Q) :
  store_ok db ->
  (forall x, In x (daily_predictions db) -> dp_date x <= d) ->
  exists db' r,
    create_daily_prediction db c d a label conf = Ok (db', r) /\
    get_latest_daily_prediction db' = Some r /\
    get_latest_prediction db' = Replied 200 r.
Proof.
  intros Hok Hnewest.
  unfold create_daily_prediction, date_column_unique.
  destruct (write_after_sound_lookup db c d a label conf
              (first_prediction_by_date db d) Hok (lookup_is_sound db d))
    as (db' & r & Hw & Hok' & Hin & Hd & _ & _ & _ & Hm).
  exists db', r. split; [assumption|].
  assert (Hdates : forall x, In x (daily_predictions db') -> dp_date x <= d).
  { intros x Hx. apply (in_map dp_date) in Hx.
    destruct (first_prediction_by_date db d) as [ex|].
    - destruct Hm as (_ & _ & _ & Hdt). rewrite Hdt in Hx.
      apply in_map_iff in Hx. destruct Hx as (y & <- & Hy). apply Hnewest; assumption.
    - rewrite Hm, map_app in Hx. apply in_app_or in Hx.
      destruct Hx as [Hx | [<- | []]]; [|lia].
      apply in_map_iff in Hx. destruct Hx as (y & <- & Hy). apply Hnewest; assumption. }
  assert (Hlatest : get_latest_daily_prediction db' = Some r).
  { unfold get_latest_daily_prediction.
    destruct (first_by_desc_some dp_date (daily_predictions db')) as [y Hy].
    - intros E. rewrite E in Hin. destruct Hin.
    - rewrite Hy. f_equal.
      apply first_by_desc_max in Hy. destruct Hy as [Hyin Hmax].
      apply (nodup_key_inj _ dp_date (daily_predictions db')); try assumption;
        [apply Hok'|].
      specialize (Hmax r Hin). specialize (Hdates y Hyin). lia. }
  split; [assumption|].
  unfold get_latest_prediction. rewrite Hlatest. reflexivity.
Qed.

Lemma upsert_of_newest_date_is_latest_witness :
  exists db' r,
    create_daily_prediction db_stale (clock_utc (mkdatetime 2024 1 5 0 0 2))
      (mkdate 2024 1 4)
      {| agg_avg_ph := 72 # 10; agg_avg_tds := 350 # 1; agg_avg_turbidity := 28 # 10;
         agg_avg_temperature := 25 # 1; agg_reading_count := 3 |}
      "Unsafe" None = Ok (db', r) /\
    get_latest_daily_prediction db' = Some r /\
    get_latest_prediction db' = Replied 200 r.
Proof.
  apply (upsert_of_newest_date_is_latest db_stale (clock_utc (mkdatetime 2024 1 5 0 0 2))
           (mkdate 2024 1 4)).
  - split; (constructor; [simpl; tauto | constructor]).
  - intros x [<- | []]. vm_compute. discriminate.
Defined.

(** ** The query endpoints of app/main.py *)

(** X8. The latest-reading endpoint raises 404 exactly when no reading is
    stored, and the latest-prediction endpoint exactly when no prediction
    is; otherwise each answers 200 with a row of largest timestamp
    (largest date). The dashboard never raises: it answers 200 with the two
    rows those endpoints would return, and [None] in the place of each one
    that would be a 404. *)
Theorem query_endpoints (db : Database) :
  (sensor_readings db = [] <->
   get_latest_reading db = HTTPException 404 "No sensor readings found") /\
  (forall s r, get_latest_reading db = Replied s r ->
     s = 200 /\ In r (sensor_readings db) /\
     forall x, In x (sensor_readings db) -> timestamp x <= timestamp r) /\
  (daily_predictions db = [] <->
   get_latest_prediction db = HTTPException 404 "No predictions found") /\
  (forall s p, get_latest_prediction db = Replied s p ->
     s = 200 /\ In p (daily_predictions db) /\
     forall x, In x (daily_predictions db) -> dp_date x <= dp_date p) /\
  exists body,
    get_dashboard_data db = Replied 200 body /\
    match get_latest_reading db with
    | Replied _ r => latest_reading body = Some r
    | HTTPException _ _ => latest_reading body = None
    end /\
    match get_latest_prediction db with
    | Replied _ p => latest_prediction body = Some p
    | HTTPException _ _ => latest_prediction body = None
    end.
Proof.
  unfold get_latest_reading, get_latest_prediction, get_dashboard_data,
    get_latest_sensor_reading, get_latest_daily_prediction.
  split; [|split; [|split; [|split]]].
  - rewrite <- (first_by_desc_none timestamp).
    destruct (first_by_desc timestamp (sensor_readings db)); split; congruence.
  - intros s r. destruct (first_by_desc timestamp (sensor_readings db)) as [y|] eqn:E;
      [|discriminate].
    intros H. injection H as <- <-. split; [reflexivity|].
    apply first_by_desc_max; assumption.
  - rewrite <- (first_by_desc_none dp_date).
    destruct (first_by_desc dp_date (daily_predictions db)); split; congruence.
  - intros s p. destruct (first_by_desc dp_date (daily_predictions db)) as [y|] eqn:E;
      [|discriminate].
    intros H. injection H as <- <-. split; [reflexivity|].
    apply first_by_desc_max; assumption.
  - eexists. split; [reflexivity|]. simpl.
    destruct (first_by_desc timestamp (sensor_readings db));
      destruct (first_by_desc dp_date (daily_predictions db)); split; reflexivity.
Qed.

(** ** The job of app/scheduler_service.py *)

(** What a write that commits returns, on any store. *)
Lemma create_daily_prediction_result (db db' : Database) (c : Clock) (d : date)
    (a : Aggregates) (label : string) (conf : option Q) (r : DailyPrediction) :
  create_daily_prediction db c d a label conf = Ok (db', r) ->
  dp_date r = d /\ holds r a label conf /\ created_at r = datetime_utcnow c /\
  In r (daily_predictions db') /\ sensor_readings db' = sensor_readings db.
Proof.
  unfold create_daily_prediction, write_daily_prediction.
  destruct (first_prediction_by_date db d) as [ex|] eqn:E.
  - intros H. injection H as <- <-. apply lookup_some in E. destruct E as [Hin Hd].
    split; [exact Hd|]. split; [repeat split|]. split; [reflexivity|].
    split; [|reflexivity].
    unfold update_daily_prediction. simpl. apply in_map_iff.
    exists ex. split; [|assumption]. simpl. rewrite Z.eqb_refl. reflexivity.
  - unfold insert_daily_prediction.
    destruct (date_column_unique && existsb _ _); [discriminate|].
    intros H. injection H as <- <-.
    split; [reflexivity|]. split; [repeat split|]. split; [reflexivity|].
    split; [|reflexivity].
    simpl. apply in_or_app. right. left. reflexivity.
Qed.

(** X9. On a store that keeps its constraints the outcome of a run is
    decided by the readings and the classifier alone. With no reading for
    yesterday the run skips. With readings, it fails exactly when the
    classification raises, with that exception and the store untouched, and
    otherwise it completes and leaves one row for yesterday, carrying the
    aggregate and the classifier's answer: the write itself never fails. *)
Theorem job_outcome_by_cases (ml : option MLService) (c cw : Clock) (db : Database) :
  store_ok db ->
  (get_readings_for_date db (date_today c - 1) = [] ->
   run_daily_prediction ml c cw db = Ok (db, SkippedNoData)) /\
  (get_readings_for_date db (date_today c - 1) <> [] ->
   exists a,
     compute_daily_aggregates db (date_today c - 1) = Ok (Some a) /\
     (forall e, call_ml_service_predict ml a = Raise e ->
                run_daily_prediction ml c cw db = Ok (db, Failed e)) /\
     (forall p, call_ml_service_predict ml a = Ok p ->
                exists db' r,
                  run_daily_prediction ml c cw db = Ok (db', Completed r) /\
                  holds r a (fst p) (snd p) /\
                  predictions_for db' (date_today c - 1) = [r])).
Proof.
  intros Hok. rewrite get_readings_for_date_window. split.
  - intros H. unfold run_daily_prediction, job_try_block. cbn zeta.
    rewrite (compute_daily_aggregates_empty _ _ H). reflexivity.
  - intros H.
    destruct (compute_daily_aggregates_nonempty db (date_today c - 1) H) as (a & Ha & _).
    exists a. split; [assumption|]. split.
    + intros e He. apply failed_classification_run with (a := a); assumption.
    + intros p Hp.
      destruct (create_daily_prediction_upsert db cw (date_today c - 1) a (fst p) (snd p) Hok)
        as (db' & r & Hc & _ & Hone & _ & Hh & _).
      exists db', r. split; [|auto].
      apply run_completed_intro with (a := a) (p := p); assumption.
Qed.

Lemma job_outcome_by_cases_witness :
  (get_readings_for_date db_stale
     (date_today (clock_utc (mkdatetime 2024 1 2 0 0 0)) - 1) = [] ->
   run_daily_prediction (Some (loaded_service forest_model))
     (clock_utc (mkdatetime 2024 1 2 0 0 0)) (clock_utc (mkdatetime 2024 1 2 0 0 1))
     db_stale = Ok (db_stale, SkippedNoData)) /\
  (get_readings_for_date db_stale
     (date_today (clock_utc (mkdatetime 2024 1 2 0 0 0)) - 1) <> [] ->
   exists a,
     compute_daily_aggregates db_stale
       (date_today (clock_utc (mkdatetime 2024 1 2 0 0 0)) - 1) = Ok (Some a) /\
     (forall e, call_ml_service_predict (Some (loaded_service forest_model)) a = Raise e ->
                run_daily_prediction (Some (loaded_service forest_model))
                  (clock_utc (mkdatetime 2024 1 2 0 0 0))
                  (clock_utc (mkdatetime 2024 1 2 0 0 1)) db_stale =
                Ok (db_stale, Failed e)) /\
     (forall p, call_ml_service_predict (Some (loaded_service forest_model)) a = Ok p ->
                exists db' r,
                  run_daily_prediction (Some (loaded_service forest_model))
                    (clock_utc (mkdatetime 2024 1 2 0 0 0))
                    (clock_utc (mkdatetime 2024 1 2 0 0 1)) db_stale =
                  Ok (db', Completed r) /\
                  holds r a (fst p) (snd p) /\
                  predictions_for db'
                    (date_today (clock_utc (mkdatetime 2024 1 2 0 0 0)) - 1) = [r])).
Proof.
  apply (job_outcome_by_cases (Some (loaded_service forest_model))
           (clock_utc (mkdatetime 2024 1 2 0 0 0)) (clock_utc (mkdatetime 2024 1 2 0 0 1))
           db_stale).
  split; (constructor; [simpl; tauto | constructor]).
Defined.

(** X10. The row a completed run returns is in the store the run leaves.
    It is dated yesterday; its count is the number of readings
    [get_readings_for_date] returns for yesterday, at least one; its four
    averages and its count are those [compute_daily_aggregates] returned
    for yesterday; its label and confidence are what the classifier
    returned for exactly those averages; its stamp is the store's clock at
    the write. *)
Theorem completed_run_stores_the_aggregate (ml : option MLService) (c cw : Clock)
    (db db' : Database) (r : DailyPrediction) :
  run_daily_prediction ml c cw db = Ok (db', Completed r) ->
  In r (daily_predictions db') /\
  dp_date r = date_today c - 1 /\
  reading_count r =
    Z.of_nat (List.length (get_readings_for_date db (date_today c - 1))) /\
  1 <= reading_count r /\
  created_at r = datetime_utcnow cw /\
  exists a,
    compute_daily_aggregates db (date_today c - 1) = Ok (Some a) /\
    agg_avg_ph a = avg_ph r /\ agg_avg_tds a = avg_tds r /\
    agg_avg_turbidity a = avg_turbidity r /\ agg_avg_temperature a = avg_temperature r /\
    agg_reading_count a = reading_count r /\
    call_ml_service_predict ml a = Ok (prediction r, prediction_confidence r).
Proof.
  intros Hrun. rewrite get_readings_for_date_window.
  destruct (run_completed_inv _ _ _ _ _ _ Hrun) as (a & p & Hagg & Hcall & Hcreate).
  destruct (create_daily_prediction_result _ _ _ _ _ _ _ _ Hcreate)
    as (Hd & Hh & Hst & Hin & _).
  destruct Hh as (A1 & A2 & A3 & A4 & A5 & A6 & A7).
  destruct (window_readings db (date_today c - 1)) as [|x W] eqn:EW.
  { rewrite (compute_daily_aggregates_empty _ _ EW) in Hagg. discriminate. }
  destruct (compute_daily_aggregates_nonempty db (date_today c - 1))
    as (a' & Ha' & _ & _ & _ & _ & Hn); [rewrite EW; discriminate|].
  rewrite Hagg in Ha'. injection Ha' as <-. rewrite EW in *.
  split; [assumption|]. split; [assumption|].
  split; [congruence|]. split; [rewrite A7, Hn; simpl; lia|].
  split; [assumption|].
  exists a. split; [assumption|]. do 5 (split; [congruence|]).
  rewrite Hcall, A5, A6. destruct p; reflexivity.
Qed.

Lemma completed_run_stores_the_aggregate_witness :
  exists db' r,
    run_daily_prediction (Some (loaded_service forest_model))
      (clock_utc (mkdatetime 2024 1 2 0 0 0)) (clock_utc (mkdatetime 2024 1 2 0 0 1))
      db_stale_jan1 = Ok (db', Completed r) /\
    In r (daily_predictions db') /\
    dp_date r = date_today (clock_utc (mkdatetime 2024 1 2 0 0 0)) - 1 /\
    reading_count r =
      Z.of_nat (List.length (get_readings_for_date db_stale_jan1
                  (date_today (clock_utc (mkdatetime 2024 1 2 0 0 0)) - 1))) /\
    1 <= reading_count r /\
    created_at r = datetime_utcnow (clock_utc (mkdatetime 2024 1 2 0 0 1)) /\
    exists a,
      compute_daily_aggregates db_stale_jan1
        (date_today (clock_utc (mkdatetime 2024 1 2 0 0 0)) - 1) = Ok (Some a) /\
      agg_avg_ph a = avg_ph r /\ agg_avg_tds a = avg_tds r /\
      agg_avg_turbidity a = avg_turbidity r /\ agg_avg_temperature a = avg_temperature r /\
      agg_reading_count a = reading_count r /\
      call_ml_service_predict (Some (loaded_service forest_model)) a =
        Ok (prediction r, prediction_confidence r).
Proof.
  eexists. eexists. split.
  - vm_compute. reflexivity.
  - apply (completed_run_stores_the_aggregate (Some (loaded_service forest_model))
             (clock_utc (mkdatetime 2024 1 2 0 0 0)) (clock_utc (mkdatetime 2024 1 2 0 0 1))
             db_stale_jan1).
    vm_compute. reflexivity.
Defined.

(** X11. A run never touches the readings and never removes or re-keys a
    prediction: on a store that keeps its constraints, the ids and the dates
    of the prediction rows after the run are those before it, in the same
    order, followed by at most one new row, which is dated yesterday; and
    the store still keeps its constraints. *)
Theorem job_keeps_rows (ml : option MLService) (c cw : Clock) (db db' : Database)
    (o : JobOutcome) :
  store_ok db ->
  run_daily_prediction ml c cw db = Ok (db', o) ->
  sensor_readings db' = sensor_readings db /\
  store_ok db' /\
  exists extra,
    (extra = [] \/ exists r, extra = [r] /\ dp_date r = date_today c - 1) /\
    map dp_id (daily_predictions db') = map dp_id (daily_predictions db) ++ map dp_id extra /\
    map dp_date (daily_predictions db') =
      map dp_date (daily_predictions db) ++ map dp_date extra.
Proof.
  intros Hok Hrun.
  assert (Hsame : db' = db ->
    sensor_readings db' = sensor_readings db /\ store_ok db' /\
    exists extra,
      (extra = [] \/ exists r, extra = [r] /\ dp_date r = date_today c - 1) /\
      map dp_id (daily_predictions db') = map dp_id (daily_predictions db) ++ map dp_id extra /\
      map dp_date (daily_predictions db') =
        map dp_date (daily_predictions db) ++ map dp_date extra).
  { intros ->. split; [reflexivity|]. split; [assumption|].
    exists []. simpl. rewrite !app_nil_r. auto. }
  pose proof (run_daily_prediction_frame ml c cw db db' o Hrun) as Hf.
  destruct o as [r| |e]; [|apply Hsame; assumption|apply Hsame; assumption].
  destruct (run_completed_inv _ _ _ _ _ _ Hrun) as (a & p & _ & _ & Hcreate).
  unfold create_daily_prediction, date_column_unique in Hcreate.
  destruct (write_after_sound_lookup db cw (date_today c - 1) a (fst p) (snd p)
              (first_prediction_by_date db (date_today c - 1)) Hok
              (lookup_is_sound db (date_today c - 1)))
    as (db2 & r2 & Hw & Hok2 & _ & Hd & _ & _ & Hs & Hm).
  rewrite Hcreate in Hw. injection Hw as <- <-.
  split; [assumption|]. split; [assumption|].
  destruct (first_prediction_by_date db (date_today c - 1)) as [ex|].
  - destruct Hm as (_ & _ & Hi & Hdt). exists []. simpl. rewrite !app_nil_r. auto.
  - exists [r]. rewrite Hm, !map_app. split; [right; exists r; auto | auto].
Qed.

Lemma job_keeps_rows_witness :
  exists db' o,
    run_daily_prediction (Some (loaded_service forest_model))
      (clock_utc (mkdatetime 2024 1 2 0 0 0)) (clock_utc (mkdatetime 2024 1 2 0 0 1))
      db_three_readings = Ok (db', o) /\
    sensor_readings db' = sensor_readings db_three_readings /\
    store_ok db' /\
    exists extra,
      (extra = [] \/
       exists r, extra = [r] /\
                 dp_date r = date_today (clock_utc (mkdatetime 2024 1 2 0 0 0)) - 1) /\
      map dp_id (daily_predictions db') =
        map dp_id (daily_predictions db_three_readings) ++ map dp_id extra /\
      map dp_date (daily_predictions db') =
        map dp_date (daily_predictions db_three_readings) ++ map dp_date extra.
Proof.
  eexists. eexists. split.
  - vm_compute. reflexivity.
  - eapply (job_keeps_rows (Some (loaded_service forest_model))
              (clock_utc (mkdatetime 2024 1 2 0 0 0)) (clock_utc (mkdatetime 2024 1 2 0 0 1))
              db_three_readings).
    + split; constructor.
    + vm_compute. reflexivity.
Defined.

(** X12. When the cron trigger of [start_scheduler] fires, the window of
    the date the job works on ends one microsecond before the local wall
    time. Its timestamps are UTC, so the window has wholly passed at that
    instant exactly when the host's zone is not ahead of UTC; on a host
    ahead of UTC a reading stamped after the run can still fall in it. *)
Theorem cron_window_passed_iff_not_ahead_of_utc (c : Clock) :
  cron_fires start_scheduler c = true ->
  end_of_day (date_today c - 1) = datetime_now c - 1 /\
  (end_of_day (date_today c - 1) < datetime_utcnow c <-> utc_offset c <= 0).
Proof.
  unfold cron_fires, start_scheduler. simpl. intros H. apply Z.eqb_eq in H.
  assert (Hu : usec_per_day <> 0) by (unfold usec_per_day; lia).
  assert (Hnow : datetime_now c = usec_per_day * date_today c).
  { unfold date_today, date_of.
    pose proof (Z.div_mod (datetime_now c) usec_per_day Hu). lia. }
  assert (Hend : end_of_day (date_today c - 1) = datetime_now c - 1).
  { unfold end_of_day, combine, time_max. unfold usec_per_day in *. lia. }
  split; [assumption|].
  rewrite Hend. unfold datetime_now, datetime_utcnow. lia.
Qed.

Lemma cron_window_passed_iff_not_ahead_of_utc_witness :
  end_of_day (date_today clock_local_midnight - 1) = datetime_now clock_local_midnight - 1 /\
  (end_of_day (date_today clock_local_midnight - 1) < datetime_utcnow clock_local_midnight <->
   utc_offset clock_local_midnight <= 0).
Proof.
  apply (cron_window_passed_iff_not_ahead_of_utc clock_local_midnight).
  vm_compute. reflexivity.
Defined.

(** ** The service of app/ml_service.py *)

(** X13. A service refuses to predict until both artifacts are loaded.
    Fresh from its constructor, [predict] raises the not-loaded error. When
    [joblib.load] raises for the model, or for the encoder after the model
    has loaded, [load_artifacts] raises that same exception and [predict]
    still raises the not-loaded error, a model loaded alone included. When
    [load_artifacts] returns, both files had loaded and the service holds
    exactly the two objects they gave. *)
Theorem load_artifacts_gates_predict
    (joblib_load_model : string -> PyResult Model)
    (joblib_load_encoder : string -> PyResult LabelEncoder)
    (classes_of : LabelEncoder -> PyResult (list string))
    (mp ep : string) (v1 v2 v3 v4 : Q) :
  predict (artifacts (MLService_init mp ep)) v1 v2 v3 v4 =
    Raise (RuntimeError "ML artifacts not loaded. Call load_artifacts() first.") /\
  (forall e,
     joblib_load_model mp = Raise e \/
     ((exists m, joblib_load_model mp = Ok m) /\ joblib_load_encoder ep = Raise e) ->
     snd (load_artifacts joblib_load_model joblib_load_encoder classes_of
            (MLService_init mp ep)) = Raise e /\
     predict (artifacts (fst (load_artifacts joblib_load_model joblib_load_encoder classes_of
                                (MLService_init mp ep)))) v1 v2 v3 v4 =
       Raise (RuntimeError "ML artifacts not loaded. Call load_artifacts() first.")) /\
  (snd (load_artifacts joblib_load_model joblib_load_encoder classes_of
          (MLService_init mp ep)) = Ok tt ->
   exists m enc,
     joblib_load_model mp = Ok m /\ joblib_load_encoder ep = Ok enc /\
     artifacts (fst (load_artifacts joblib_load_model joblib_load_encoder classes_of
                       (MLService_init mp ep))) =
       {| model := Some m; label_encoder := Some enc |}).
Proof.
  unfold load_artifacts, MLService_init. simpl.
  split; [reflexivity|]. split.
  - intros e [H | [[m Hm] He]].
    + rewrite H. split; reflexivity.
    + rewrite Hm, He. split; reflexivity.
  - destruct (joblib_load_model mp) as [m|e]; [|discriminate].
    destruct (joblib_load_encoder ep) as [enc|e]; [|discriminate].
    destruct (classes_of enc) as [cl|e]; [|discriminate].
    intros _. exists m, enc. auto.
Qed.

(** X14. What a prediction that returns means. The label is the
    encoder's decoding of the class the model predicted. The confidence is
    [None] when the model has no [predict_proba]; when it has one, the
    confidence is an entry of the probability vector it returned, no entry
    is larger, and it lies within [0,1] whenever all entries do. *)
Theorem predict_result_meaning (svc : MLService) (v1 v2 v3 v4 : Q)
    (lbl : string) (cf : option Q) :
  predict svc v1 v2 v3 v4 = Ok (lbl, cf) ->
  exists m enc y,
    model svc = Some m /\ label_encoder svc = Some enc /\
    model_predict m (v1, v2, v3, v4) = Ok y /\
    inverse_transform enc y = Ok lbl /\
    (model_predict_proba m = None -> cf = None) /\
    (forall proba, model_predict_proba m = Some proba ->
       exists probabilities c,
         proba (v1, v2, v3, v4) = Ok probabilities /\ cf = Some c /\
         In c probabilities /\ Forall (fun q => (q <= c)%Q) probabilities /\
         (Forall (fun q => (0 <= q <= 1)%Q) probabilities -> (0 <= c <= 1)%Q)).
Proof.
  intros H. pose proof (predict_inv svc v1 v2 v3 v4 lbl cf H) as Hinv.
  destruct Hinv as (m & enc & y & Hm & He & Hy & Hl & _).
  exists m, enc, y. do 4 (split; [assumption|]). split.
  - intros Hn. apply (confidence_absent_without_proba svc m v1 v2 v3 v4 lbl cf Hm Hn H).
  - intros proba Hp.
    apply (confidence_is_largest_probability svc m proba v1 v2 v3 v4 lbl cf Hm Hp H).
Qed.

Lemma predict_result_meaning_witness :
  exists m enc y,
    model (loaded_service forest_model) = Some m /\
    label_encoder (loaded_service forest_model) = Some enc /\
    model_predict m (72 # 10, 350 # 1, 28 # 10, 25 # 1) = Ok y /\
    inverse_transform enc y = Ok "Safe"%string /\
    (model_predict_proba m = None -> Some (91 # 100) = None) /\
    (forall proba, model_predict_proba m = Some proba ->
       exists probabilities c,
         proba (72 # 10, 350 # 1, 28 # 10, 25 # 1) = Ok probabilities /\
         Some (91 # 100) = Some c /\
         In c probabilities /\ Forall (fun q => (q <= c)%Q) probabilities /\
         (Forall (fun q => (0 <= q <= 1)%Q) probabilities -> (0 <= c <= 1)%Q)).
Proof.
  apply (predict_result_meaning (loaded_service forest_model)
           (72 # 10) (350 # 1) (28 # 10) (25 # 1) "Safe" (Some (91 # 100))).
  reflexivity.
Defined.

(** X15. A loaded service raises exactly what its artifacts raise, and
    one error of its own. For every input, [predict] raises [e] if and only
    if the model's [predict] raises [e]; or the encoder's
    [inverse_transform] raises [e] on the class predicted; or, the label
    being decoded, the model's [predict_proba] raises [e], or returns an
    empty vector and [e] is the [ValueError] of the maximum of an empty
    sequence. No exception is wrapped, and nothing else makes it raise. *)
Theorem predict_raises_what_the_artifact_raises (svc : MLService) (m : Model)
    (enc : LabelEncoder) :
  model svc = Some m -> label_encoder svc = Some enc ->
  forall (v1 v2 v3 v4 : Q) (e : PyExc),
    predict svc v1 v2 v3 v4 = Raise e <->
    (model_predict m (v1, v2, v3, v4) = Raise e \/
     (exists y, model_predict m (v1, v2, v3, v4) = Ok y /\
                inverse_transform enc y = Raise e) \/
     (exists y lbl proba,
        model_predict m (v1, v2, v3, v4) = Ok y /\
        inverse_transform enc y = Ok lbl /\
        model_predict_proba m = Some proba /\
        (proba (v1, v2, v3, v4) = Raise e \/
         (proba (v1, v2, v3, v4) = Ok [] /\
          e = ValueError "max() arg is an empty sequence")))).
Proof.
  intros Hm He v1 v2 v3 v4 e. unfold predict. rewrite Hm, He.
  destruct (model_predict m (v1, v2, v3, v4)) as [y|e1] eqn:E1; simpl.
  - destruct (inverse_transform enc y) as [lbl|e2] eqn:E2; simpl.
    + destruct (model_predict_proba m) as [proba|] eqn:E3.
      * destruct (proba (v1, v2, v3, v4)) as [probs|e4] eqn:E4; simpl.
        -- destruct probs as [|q probs]; simpl.
           ++ split.
              ** intros H. injection H as <-. right. right.
                 exists y, lbl, proba.
                 do 3 (split; [reflexivity || assumption|]). right. auto.
              ** intros [H | [(y' & H1 & H2) | (y' & l' & p' & H1 & H2 & H3 & H4)]].
                 --- discriminate.
                 --- injection H1 as <-. congruence.
                 --- injection H3 as <-. destruct H4 as [H4 | [_ ->]];
                       [rewrite E4 in H4; discriminate | reflexivity].
           ++ split; [discriminate|].
              intros [H | [(y' & H1 & H2) | (y' & l' & p' & H1 & H2 & H3 & H4)]].
              ** discriminate.
              ** injection H1 as <-. congruence.
              ** injection H3 as <-. rewrite E4 in H4.
                 destruct H4 as [H4 | [H4 _]]; discriminate.
        -- split.
           ++ intros H. injection H as <-. right. right.
              exists y, lbl, proba.
              do 3 (split; [reflexivity || assumption|]). left. assumption.
           ++ intros [H | [(y' & H1 & H2) | (y' & l' & p' & H1 & H2 & H3 & H4)]].
              ** discriminate.
              ** injection H1 as <-. congruence.
              ** injection H3 as <-. rewrite E4 in H4.
                 destruct H4 as [H4 | [H4 _]]; [congruence | discriminate].
      * split; [discriminate|].
        intros [H | [(y' & H1 & H2) | (y' & l' & p' & H1 & H2 & H3 & H4)]].
        -- discriminate.
        -- injection H1 as <-. congruence.
        -- discriminate.
    + split.
      * intros H. injection H as <-. right. left. exists y. auto.
      * intros [H | [(y' & H1 & H2) | (y' & l' & p' & H1 & H2 & H3 & H4)]].
        -- discriminate.
        -- injection H1 as <-. congruence.
        -- injection H1 as <-. congruence.
  - split.
    + intros H. left. congruence.
    + intros [H | [(y' & H1 & H2) | (y' & l' & p' & H1 & H2 & H3 & H4)]];
        [congruence | discriminate | discriminate].
Qed.

(** The four ways of raising, each on an input of [moody_model]: the
    model's [predict], the encoder on an unknown class, the model's
    [predict_proba], and an empty probability vector. *)
Lemma predict_raises_what_the_artifact_raises_witness :
  predict (loaded_service moody_model) 0 (350 # 1) (28 # 10) (25 # 1) =
    Raise (ExternalError "Input contains NaN") /\
  predict (loaded_service moody_model) (1 # 2) (350 # 1) (28 # 10) (25 # 1) =
    Raise (ValueError "y contains previously unseen labels") /\
  predict (loaded_service moody_model) (72 # 10) 0 (28 # 10) (25 # 1) =
    Raise (ExternalError "predict_proba failed") /\
  predict (loaded_service moody_model) (72 # 10) (1 # 2) (28 # 10) (25 # 1) =
    Raise (ValueError "max() arg is an empty sequence") /\
  predict (loaded_service moody_model) (72 # 10) (350 # 1) (28 # 10) (25 # 1) =
    Ok ("Safe"%string, Some (1 # 2)) /\
  forall (v1 v2 v3 v4 : Q) (e : PyExc),
    predict (loaded_service moody_model) v1 v2 v3 v4 = Raise e <->
    (model_predict moody_model (v1, v2, v3, v4) = Raise e \/
     (exists y, model_predict moody_model (v1, v2, v3, v4) = Ok y /\
                inverse_transform two_labels y = Raise e) \/
     (exists y lbl proba,
        model_predict moody_model (v1, v2, v3, v4) = Ok y /\
        inverse_transform two_labels y = Ok lbl /\
        model_predict_proba moody_model = Some proba /\
        (proba (v1, v2, v3, v4) = Raise e \/
         (proba (v1, v2, v3, v4) = Ok [] /\
          e = ValueError "max() arg is an empty sequence")))).
Proof.
  do 5 (split; [vm_compute; reflexivity|]).
  apply (predict_raises_what_the_artifact_raises (loaded_service moody_model)
           moody_model two_labels); reflexivity.
Defined.

Lemma confidence_of_arg_max_witness :
  exists c, Some (91 # 100) = Some c /\ (c == 91 # 100)%Q.
Proof.
  apply (confidence_of_arg_max (loaded_service forest_model) forest_model
           (fun _ => Ok [91 # 100; 9 # 100]) [91 # 100; 9 # 100] 0 (91 # 100)
           (72 # 10) (350 # 1) (28 # 10) (25 # 1) "Safe" (Some (91 # 100))).
  - reflexivity.
  - reflexivity.
  - reflexivity.
  - reflexivity.
  - reflexivity.
  - repeat constructor; vm_compute; discriminate.
  - reflexivity.
Defined.

(** The service [app/main.py] builds, loaded from a disk that holds both
    artifacts, answers; built on a path the disk does not hold, it fails
    to load and refuses. *)
Example load_from_disk :
  snd (load_artifacts disk_model disk_encoder two_label_classes
         (MLService_init "ml_artifacts/water_quality_rf_model.pkl"
            "ml_artifacts/label_encoder.pkl")) = Ok tt /\
  predict (artifacts (fst (load_artifacts disk_model disk_encoder two_label_classes
                             (MLService_init "ml_artifacts/water_quality_rf_model.pkl"
                                "ml_artifacts/label_encoder.pkl"))))
    (72 # 10) (350 # 1) (28 # 10) (25 # 1) = Ok ("Safe"%string, Some (91 # 100)) /\
  snd (load_artifacts disk_model disk_encoder two_label_classes
         (MLService_init "ml_artifacts/water_quality_rf_model.pkl" "missing.pkl")) =
    Raise (ExternalError "No such file or directory") /\
  model (artifacts (fst (load_artifacts disk_model disk_encoder two_label_classes
                           (MLService_init "ml_artifacts/water_quality_rf_model.pkl"
                              "missing.pkl")))) = Some forest_model /\
  predict (artifacts (fst (load_artifacts disk_model disk_encoder two_label_classes
                             (MLService_init "ml_artifacts/water_quality_rf_model.pkl"
                                "missing.pkl"))))
    (72 # 10) (350 # 1) (28 # 10) (25 # 1) =
    Raise (RuntimeError "ML artifacts not loaded. Call load_artifacts() first.").
Proof. repeat split; reflexivity. Qed.
